(** * Gemmini helpers: [create_header_file]

    A shallow embedding of [python/tvm/contrib/gemmini/helpers.py].
    [create_header_file] turns a numpy array into a pair of C artifacts
    (a [.h] declaration file and a [.c] definition file).  The embedding
    keeps the control flow of the Python function: exceptions are results,
    the file system is a finite map from resolved paths to file contents,
    and every [write] appends to the file it was opened on. *)

From Stdlib Require Import ZArith String Ascii List DecimalString DecimalZ Lia.
From stdpp Require Import base option gmap strings list sorting.

Open Scope Z_scope.

(** ** Characters that a Rocq string literal cannot hold directly *)

Definition LF : string := String (ascii_of_nat 10) EmptyString.
Definition TAB : string := String (ascii_of_nat 9) EmptyString.
Definition DQUOTE : string := String (ascii_of_nat 34) EmptyString.

(** ** Exceptions, outcomes and the file-system monad *)

Inductive exn : Type :=
| AssertionError (msg : string)
| IndexError
| OverflowError.

Inductive outcome (A : Type) : Type :=
| Ok (a : A)
| Raise (e : exn).
Arguments Ok {A} a.
Arguments Raise {A} e.

(** The file system: resolved path |-> content of the regular file there.
    Opening and writing are assumed to succeed (no permission or disk
    errors). *)
Abbreviation FS := (gmap string string).

(** A computation threads the file system and may stop with an exception;
    what was written before the exception stays written (every [with]
    block closes its file on the way out). *)
Definition IO (A : Type) : Type := FS -> FS * outcome A.

Definition ret {A} (a : A) : IO A := fun fs => (fs, Ok a).
Definition bind {A B} (c : IO A) (k : A -> IO B) : IO B :=
  fun fs =>
    match c fs with
    | (fs', Ok a) => k a fs'
    | (fs', Raise e) => (fs', Raise e)
    end.
Definition lift {A} (o : outcome A) : IO A := fun fs => (fs, o).

Notation "x <- c ;; k" := (bind c (fun x => k))
  (at level 100, c at next level, right associativity).
Notation "c ;; k" := (bind c (fun _ => k))
  (at level 100, right associativity).

(** [open(path, "a+")]: creates an empty file when there is none.  The
    open is taken to succeed: a missing or unwritable directory
    ([FileNotFoundError], [OSError]) is outside this model, so every
    statement below is about calls whose two files can be opened and
    written. *)
Definition open_a (path : string) : IO unit :=
  fun fs =>
    (match fs !! path with
     | Some _ => fs
     | None => <[path := ""]> fs
     end, Ok tt).

(** [f.write(text)] on a file opened in append mode. *)
Definition write (path text : string) : IO unit :=
  fun fs => (<[path := default "" (fs !! path) +:+ text]> fs, Ok tt).

(** [path.is_file()] *)
Definition is_file (path : string) : IO bool :=
  fun fs => (fs, Ok (bool_decide (is_Some (fs !! path)))).

(** [for x in xs: body(x)] *)
Fixpoint for_each {A} (xs : list A) (body : A -> IO unit) : IO unit :=
  match xs with
  | [] => ret tt
  | x :: xs' => body x ;; for_each xs' body
  end.

(** [range(start, stop, step)] for a positive [step]. *)
Definition range (start stop step : nat) : list nat :=
  map (fun k => (start + k * step)%nat)
      (seq 0 ((stop - start + (step - 1)) / step)).

(** ** Numbers as text *)

(** [str(n)] of a Python int: decimal digits, a leading minus sign when
    negative. *)
Definition str_int (z : Z) : string := NilZero.string_of_int (Z.to_int z).

Definition hex_digit (n : Z) : ascii :=
  match n with
  | 0 => "0" | 1 => "1" | 2 => "2" | 3 => "3" | 4 => "4" | 5 => "5"
  | 6 => "6" | 7 => "7" | 8 => "8" | 9 => "9" | 10 => "a" | 11 => "b"
  | 12 => "c" | 13 => "d" | 14 => "e" | _ => "f"
  end%char.

(** Two lower-case hex digits of one byte, as [bytes.hex()] prints it. *)
Definition byte_hex (b : Z) : string :=
  String (hex_digit (b / 16)) (String (hex_digit (b mod 16)) EmptyString).

(** [bytes.hex()] *)
Fixpoint hex (bs : list Z) : string :=
  match bs with
  | [] => EmptyString
  | b :: bs' => byte_hex b +:+ hex bs'
  end.

(** [n.to_bytes(length=1, byteorder="big")]: the default is unsigned, so a
    value outside 0..255 raises [OverflowError]. *)
Definition to_bytes1 (n : Z) : outcome (list Z) :=
  if (0 <=? n) && (n <=? 255) then Ok [n] else Raise OverflowError.

(** ** numpy arrays *)

(** The element kinds: the four that lines 70-81 test for, and
    [other_dtype name] for any dtype that compares unequal to all four,
    with the name it prints under. *)
Inductive np_dtype : Type :=
| float32
| int8
| uint8
| uint32
| other_dtype (name : string).

Global Instance np_dtype_eq_dec : EqDecision np_dtype.
Proof. solve_decision. Defined.

(** An array: its element kind, its shape, and its elements in row-major
    order.  An integer element is its value; a [float32] element is its
    IEEE-754 bit pattern, which this file never interprets. *)
Record ndarray : Type := mk_ndarray {
  dtype : np_dtype;
  shape : list nat;
  elems : list Z
}.

Definition prod_shape (sh : list nat) : nat := fold_right Nat.mul 1%nat sh.

(** [a.size] *)
Definition size (a : ndarray) : nat := prod_shape (shape a).

(** [a.flatten()] *)
Definition flatten (a : ndarray) : list Z := elems a.

Definition in_range (dt : np_dtype) (v : Z) : Prop :=
  match dt with
  | int8 => -128 <= v <= 127
  | uint8 => 0 <= v <= 255
  | uint32 | float32 => 0 <= v < 2 ^ 32
  | other_dtype _ => True
  end.

(** What numpy guarantees of every array it hands out. *)
Definition wf_ndarray (a : ndarray) : Prop :=
  length (elems a) = prod_shape (shape a) /\ Forall (in_range (dtype a)) (elems a).

Definition supported (dt : np_dtype) : Prop :=
  match dt with
  | other_dtype _ => False
  | _ => True
  end.

(** Little-endian bytes of the low [n] bytes of [v]. *)
Fixpoint le_bytes (n : nat) (v : Z) : list Z :=
  match n with
  | O => []
  | S n' => v mod 256 :: le_bytes n' (v / 256)
  end.

Definition itemsize (dt : np_dtype) : nat :=
  match dt with
  | int8 | uint8 => 1
  | float32 | uint32 => 4
  | other_dtype _ => 0
  end.

(** [a.tobytes()]: the elements' two's-complement (or IEEE) bytes, in
    row-major order, on a little-endian host.  It is only reached for the
    four supported kinds. *)
Definition tobytes (a : ndarray) : list Z :=
  flat_map (le_bytes (itemsize (dtype a))) (elems a).

(** [xs[i]] for a non-negative [i]. *)
Definition getitem {A} (xs : list A) (i : nat) : outcome A :=
  match nth_error xs i with
  | Some x => Ok x
  | None => Raise IndexError
  end.

(** [a[i]] on an array: the [i]-th sub-array along the first axis.  An
    empty shape in the result stands for a numpy scalar. *)
Definition subarray (a : ndarray) (i : nat) : outcome ndarray :=
  match shape a with
  | [] => Raise IndexError
  | d :: sh =>
      if (i <? d)%nat
      then Ok (mk_ndarray (dtype a) sh
                 (firstn (prod_shape sh) (skipn (i * prod_shape sh) (elems a))))
      else Raise IndexError
  end.

(** The dtype's name, as ["%s" % a.dtype] prints it. *)
Definition dtype_name (dt : np_dtype) : string :=
  match dt with
  | float32 => "float32"
  | int8 => "int8"
  | uint8 => "uint8"
  | uint32 => "uint32"
  | other_dtype name => name
  end.

(** Truthiness of the [section] argument: [None] and the empty string are
    false. *)
Definition truthy (section : option string) : bool :=
  match section with
  | Some (String _ _) => true
  | _ => false
  end.

Definition section_text (section : option string) : string :=
  default "None" section.

(** Concatenation of the pieces written one after the other. *)
Definition cat (pieces : list string) : string := fold_right String.append "" pieces.

(** The literal that lines 110-117 write for a byte element of value [v]. *)
Definition byte_literal (v : Z) : string :=
  if v <? 0 then "-0x" +:+ byte_hex (Z.lnot v + 1) else "+0x" +:+ byte_hex (v mod 256).

(** ** The emitter *)

Section Emitter.

(** Three library functions that the source calls and that are not part
    of it:
    - [with_suffix p sfx] is
      [pathlib.Path(p).resolve().with_suffix(sfx).resolve()]; that the
      [.h] and the [.c] path of one name differ is a hypothesis of the
      statements that need it;
    - [numpy_str dt v] is numpy's text for a scalar of a kind that is not
      one of the three integer kinds handled here ([float32] above all);
    - [ndarray_str a] is numpy's text for an array of rank one or more. *)
Variable with_suffix : string -> string -> string.
Variable numpy_str : np_dtype -> Z -> string.
Variable ndarray_str : ndarray -> string.

(** [f"{x}"] for a numpy scalar [x]. *)
Definition scalar_str (dt : np_dtype) (v : Z) : string :=
  match dt with
  | int8 | uint8 | uint32 => str_int v
  | float32 | other_dtype _ => numpy_str dt v
  end.

(** [f"{x}"] for the result of an indexing expression. *)
Definition item_str (x : ndarray) : string :=
  match shape x with
  | [] => scalar_str (dtype x) (nth 0 (elems x) 0)
  | _ :: _ => ndarray_str x
  end.

(** Lines 70-83: the if/elif chain on the element kind. *)
Definition resolve_type (dt : np_dtype) : outcome (string * Z) :=
  match dt with
  | float32 => Ok ("float", 32)
  | int8 => Ok ("int8_t", 16)
  | uint8 => Ok ("uint8_t", 16)
  | uint32 => Ok ("uint32_t", 16)
  | other_dtype _ =>
      Raise (AssertionError ("Type " +:+ dtype_name dt +:+ " is not supported!"))
  end.

(** Lines 86-89: the text appended to the header file. *)
Definition header_text (type tensor_name : string) (tensor_data : ndarray) : string :=
  ("#define " +:+ tensor_name +:+ "_len " +:+ str_int (Z.of_nat (size tensor_data)) +:+ LF)
  +:+ ("extern " +:+ type +:+ " " +:+ tensor_name +:+ "[" +:+ tensor_name +:+ "_len];" +:+ LF).

(** Lines 97-99: the opening line of the definition. *)
Definition opening_line (type tensor_name : string) (section : option string)
    (align : Z) : string :=
  if truthy section
  then type +:+ " " +:+ tensor_name +:+ "[] __attribute__((section(" +:+ DQUOTE
       +:+ section_text section +:+ DQUOTE +:+ "), aligned(" +:+ str_int align
       +:+ "))) = {"
  else type +:+ " " +:+ tensor_name +:+ "[] __attribute__((aligned(" +:+ str_int align
       +:+ "))) = {".

(** Lines 105-106: the loop of the 32-bit kinds. *)
Definition write_words (f : string) (dt : np_dtype) (flat : list Z) : IO unit :=
  for_each (range 0 (length flat) 1) (fun i =>
    x <- lift (getitem flat i) ;;
    write f (scalar_str dt x +:+ ",")).

(** Lines 110-117: the literal of the byte at hex offset [i].
    [int(i / 2)] is the integer quotient for every offset a buffer can
    have. *)
Definition write_byte_literal (f data_hexstr : string) (flat : list Z) (i : nat)
    : IO unit :=
  x <- lift (getitem flat (i / 2)) ;;
  if x <? 0 then
    bs <- lift (to_bytes1 (Z.lnot x + 1)) ;;
    write f ("-0x" +:+ hex bs)
  else
    write f ("+0x" +:+ substring i 2 data_hexstr).

(** Lines 118-119: the separator after the literal at hex offset [i]. *)
Definition write_separator (f : string) (flat : list Z) (i : nat) : IO unit :=
  if bool_decide (Z.of_nat i <> (Z.of_nat (length flat) - 1) * 2)
  then write f ","
  else ret tt.

(** Lines 109-119: the loop of the byte kinds. *)
Definition write_bytes (f data_hexstr : string) (flat : list Z) : IO unit :=
  for_each (range 0 (String.length data_hexstr) 2) (fun i =>
    write_byte_literal f data_hexstr flat i ;;
    write_separator f flat i).

Definition shape_at (a : ndarray) (k : nat) : IO nat := lift (getitem (shape a) k).

(** [a[i][j][k][l]] *)
Definition index4 (a : ndarray) (i j k l : nat) : IO ndarray :=
  a1 <- lift (subarray a i) ;;
  a2 <- lift (subarray a1 j) ;;
  a3 <- lift (subarray a2 k) ;;
  lift (subarray a3 l).

(** Lines 123-131: the commented dump of the tensor. *)
Definition dump_tensor (f : string) (tensor_data : ndarray) : IO unit :=
  write f ("/*" +:+ LF) ;;
  d0 <- shape_at tensor_data 0 ;;
  for_each (range 0 d0 1) (fun n =>
    d3 <- shape_at tensor_data 3 ;;
    for_each (range 0 d3 1) (fun ch =>
      write f ("Channel " +:+ str_int (Z.of_nat ch) +:+ ":" +:+ LF) ;;
      d1 <- shape_at tensor_data 1 ;;
      for_each (range 0 d1 1) (fun row =>
        d2 <- shape_at tensor_data 2 ;;
        for_each (range 0 d2 1) (fun col =>
          x <- index4 tensor_data n row col ch ;;
          write f (item_str x +:+ TAB)) ;;
        write f LF))) ;;
  write f ("*/" +:+ LF).

(** Lines 133-143: the commented dump of the weights. *)
Definition dump_weights (f : string) (weights : ndarray) : IO unit :=
  write f ("/*" +:+ LF) ;;
  d3 <- shape_at weights 3 ;;
  for_each (range 0 d3 1) (fun o_ch =>
    write f ("Output channel " +:+ str_int (Z.of_nat o_ch) +:+ ":" +:+ LF) ;;
    d2 <- shape_at weights 2 ;;
    for_each (range 0 d2 1) (fun i_ch =>
      write f ("Input channel " +:+ str_int (Z.of_nat i_ch) +:+ ":" +:+ LF) ;;
      d0 <- shape_at weights 0 ;;
      for_each (range 0 d0 1) (fun row =>
        d1 <- shape_at weights 1 ;;
        for_each (range 0 d1 1) (fun col =>
          x <- index4 weights row col i_ch o_ch ;;
          write f (item_str x +:+ TAB)) ;;
        write f LF))) ;;
  write f ("*/" +:+ LF).

(** Lines 122-143. *)
Definition dump (f : string) (tensor_data : ndarray) (debug : bool)
    (weights : option ndarray) : IO unit :=
  if debug then
    dump_tensor f tensor_data ;;
    match weights with
    | Some w => dump_weights f w
    | None => ret tt
    end
  else ret tt.

(** Lines 101-120: the initializer's elements and its closing brace. *)
Definition write_initializer (f : string) (tensor_data : ndarray) : IO unit :=
  let data_hexstr := hex (tobytes tensor_data) in
  let flat := flatten tensor_data in
  if bool_decide (dtype tensor_data = float32) || bool_decide (dtype tensor_data = uint32)
  then
    write_words f (dtype tensor_data) flat ;;
    write f ("};" +:+ LF +:+ LF)
  else
    write_bytes f data_hexstr flat ;;
    write f ("};" +:+ LF +:+ LF).

(** The text that [write_initializer] puts between the braces for a
    well-formed array of a supported kind (lemma
    [write_initializer_emits]). *)
Definition literal_list (tensor_data : ndarray) : string :=
  match dtype tensor_data with
  | float32 | uint32 =>
      cat (map (fun v => scalar_str (dtype tensor_data) v +:+ ",") (flatten tensor_data))
  | _ => String.concat "," (map byte_literal (flatten tensor_data))
  end.

(** Lines 65-68: the two resolved paths. *)
Definition raw_header_path (output_path name : string) : string :=
  with_suffix (output_path +:+ "/" +:+ name) ".h".
Definition raw_source_path (output_path name : string) : string :=
  with_suffix (output_path +:+ "/" +:+ name) ".c".

Definition create_header_file (name : string) (section : option string)
    (tensor_name : string) (tensor_data : ndarray) (output_path : string)
    (debug : bool) (weights : option ndarray) : IO unit :=
  let header_file := raw_header_path output_path name in
  let source_file := raw_source_path output_path name in
  ta <- lift (resolve_type (dtype tensor_data)) ;;
  let type := fst ta in
  let align := snd ta in
  open_a header_file ;;
  write header_file (header_text type tensor_name tensor_data) ;;
  is_f <- is_file source_file ;;
  (if negb is_f then
     open_a source_file ;;
     write source_file ("#include <stdint.h>" +:+ LF)
   else ret tt) ;;
  open_a source_file ;;
  write source_file (opening_line type tensor_name section align) ;;
  write_initializer source_file tensor_data ;;
  dump source_file tensor_data debug weights.

End Emitter.

(** ** What a computation appends to one file *)

(** [emits f c t r]: started where file [f] exists, [c] appends exactly [t]
    to [f], touches nothing else, and ends with [r]. *)
Definition emits {A} (f : string) (c : IO A) (t : string) (r : outcome A) : Prop :=
  forall (fs : FS) (pre : string),
    fs !! f = Some pre -> c fs = (<[f := pre +:+ t]> fs, r).

(** Every computation below appends to its file, whatever it ends with. *)
Definition appends {A} (f : string) (c : IO A) : Prop :=
  exists t r, emits f c t r.

(** ** Reading an initializer back

    The reader of the round-trip property: it splits the text between the
    braces at commas, does not count an empty piece after the last comma
    as an element (as a C compiler does not), and reads each piece by the
    convention of the element kind. *)

Fixpoint has_comma (s : string) : bool :=
  match s with
  | EmptyString => false
  | String c s' => Ascii.eqb c "," || has_comma s'
  end.

Fixpoint split_commas (s : string) : list string :=
  match s with
  | EmptyString => [EmptyString]
  | String c s' =>
      if Ascii.eqb c ","
      then EmptyString :: split_commas s'
      else match split_commas s' with
           | [] => [String c EmptyString]
           | t :: ts => String c t :: ts
           end
  end.

Definition tokens (body : string) : list string :=
  let pieces := split_commas body in
  match last pieces with
  | Some EmptyString => removelast pieces
  | _ => pieces
  end.







(** ** Stand-ins for the library functions, for concrete runs *)

Definition plain_suffix (p sfx : string) : string := p +:+ sfx.
Definition numpy_str0 (dt : np_dtype) (v : Z) : string := "f" +:+ str_int v.
Definition ndarray_str0 (a : ndarray) : string := "[...]".

(** [create_header_file("t", section, "x", a, "out", debug, w)] *)
Definition run (section : option string) (a : ndarray) (debug : bool)
    (w : option ndarray) : IO unit :=
  create_header_file plain_suffix numpy_str0 ndarray_str0 "t" section "x" a "out" debug w.

(** The two artifacts and the outcome of a run. *)
Definition artifacts (r : FS * outcome unit) :=
  (fst r !! "out/t.h", fst r !! "out/t.c", snd r).

(** ** Sample arrays *)

Definition sample_int8 : ndarray := mk_ndarray int8 [3%nat] [-5; 5; -128].
Definition sample_uint8 : ndarray := mk_ndarray uint8 [2%nat] [250; 0].
Definition sample_single : ndarray := mk_ndarray uint32 [1%nat] [7].
Definition sample_empty : ndarray := mk_ndarray float32 [2%nat; 0%nat] [].
Definition sample_float32 : ndarray := mk_ndarray float32 [2%nat] [1065353216; 0].
Definition sample_float64 : ndarray := mk_ndarray (other_dtype "float64") [1%nat] [0].
Definition sample_nhwc : ndarray := mk_ndarray int8 [1; 2; 1; 2]%nat [1; 2; 3; -4].
Definition sample_weights : ndarray :=
  mk_ndarray (other_dtype "float64") [2; 1; 1; 2]%nat [10; 11; 12; 13].
Definition sample_empty_batch : ndarray := mk_ndarray int8 [0; 3]%nat [].

(** One grid of the debug dump: [rows] lines, each made of [cols] cells
    with a tab after each cell, each line closed by a line feed. *)
Definition grid_text (cell : nat -> nat -> string) (rows cols : nat) : string :=
  cat (map (fun row =>
              cat (map (fun col => cell row col +:+ TAB) (seq 0 cols)) +:+ LF)
           (seq 0 rows)).

(** ** Divisors

    [get_divisors] and [get_greater_div] of the same file.  Python
    integers are [Z]; [x % i] for a positive [i] is [Z.modulo]. *)

(** The exceptions these two functions can end with. *)
Module DivExn.
Inductive t : Type :=
| AssertionError (msg : string)
| TypeError
| ValueError.
End DivExn.

(** [range(start, stop)] over Python integers. *)
Definition range_Z (start stop : Z) : list Z := seqZ start (stop - start).

(** Lines 155-159. *)
Definition get_divisors (x : Z) : list Z :=
  filter (fun i => x mod i = 0) (range_Z 1 (x + 1)).

(** The argument [x] of [get_greater_div]: an int, a list of ints, or a
    value of any other type. *)
Inductive py_arg : Type :=
| PyInt (n : Z)
| PyList (l : list Z)
| PyOther.

(** [set.intersection] called on the unpacked list [sets]: with no
    argument at all the descriptor raises [TypeError]; otherwise the first
    set meets all the others. *)
Definition set_intersection (sets : list (gset Z)) : DivExn.t + gset Z :=
  match sets with
  | [] => inl DivExn.TypeError
  | s :: rest => inr (foldl (fun acc t => acc ∩ t) s rest)
  end.

(** [max(s)] of a set: [ValueError] when it is empty. *)
Definition set_max (s : gset Z) : DivExn.t + Z :=
  match elements s with
  | [] => inl DivExn.ValueError
  | y :: ys => inr (foldr Z.max y ys)
  end.

(** The elements the loop of [get_greater_div] runs over, when the type
    of [x] is accepted (lines 175-178). *)
Definition arg_elements (x : py_arg) : option (list Z) :=
  match x with
  | PyInt n => Some [n]
  | PyList l => Some l
  | PyOther => None
  end.

(** [y] is in the filtered divisor list of every element of [l]. *)
Definition bounded_common_divisor (l : list Z) (limit y : Z) : Prop :=
  1 <= y <= limit /\ forall e, e ∈ l -> y <= e /\ (y | e).

Section GreaterDiv.

(** [env.DIM], the default limit, of an [Environment] defined in another
    file. *)
Variable DIM : Z.

(** Lines 173-188. *)
Definition get_greater_div (x : py_arg) (limit : option Z) : DivExn.t + Z :=
  let limit := match limit with None => DIM | Some l => l end in
  match (match x with
         | PyInt n => inr [n]
         | PyList l => inr l
         | PyOther => inl (DivExn.AssertionError "type of x not supported!")
         end) with
  | inl e => inl e
  | inr elements =>
      let divisors :=
        map (fun element => filter (fun d => d <= limit) (get_divisors element))
            elements in
      match set_intersection (map list_to_set divisors) with
      | inl e => inl e
      | inr common => set_max common
      end
  end.

End GreaterDiv.

(** ** Facts on strings *)

Lemma app_cons_s (c : ascii) (s t : string) : String c s +:+ t = String c (s +:+ t).
Proof. reflexivity. Qed.

Lemma app_nil_r_s (s : string) : s +:+ "" = s.
Proof. induction s as [|c s IH]; [reflexivity|]. rewrite app_cons_s, IH. reflexivity. Qed.

Lemma app_assoc_s (s t u : string) : (s +:+ t) +:+ u = s +:+ (t +:+ u).
Proof.
  induction s as [|c s IH]; [reflexivity|].
  rewrite !app_cons_s, IH. reflexivity.
Qed.

Lemma length_app_s (s t : string) :
  String.length (s +:+ t) = (String.length s + String.length t)%nat.
Proof.
  induction s as [|c s IH]; [reflexivity|].
  rewrite app_cons_s. simpl. rewrite IH. reflexivity.
Qed.

Lemma substring_skip (p s : string) (m : nat) :
  substring (String.length p) m (p +:+ s) = substring 0 m s.
Proof.
  induction p as [|c p IH]; [reflexivity|].
  rewrite app_cons_s. simpl. exact IH.
Qed.

(** ** What a computation appends to one file *)

Lemma emits_lift {A} f (o : outcome A) : emits f (lift o) "" o.
Proof.
  intros fs pre H. unfold lift. rewrite app_nil_r_s, insert_id by exact H.
  reflexivity.
Qed.

Lemma emits_ret {A} f (a : A) : emits f (ret a) "" (Ok a).
Proof. exact (emits_lift f (Ok a)). Qed.

Lemma emits_write f t : emits f (write f t) t (Ok tt).
Proof. intros fs pre H. unfold write. rewrite H. reflexivity. Qed.

Lemma emits_bind_ok {A B} f (c : IO A) (k : A -> IO B) t1 a t2 r :
  emits f c t1 (Ok a) -> emits f (k a) t2 r -> emits f (bind c k) (t1 +:+ t2) r.
Proof.
  intros Hc Hk fs pre H. unfold bind. rewrite (Hc fs pre H).
  rewrite (Hk _ (pre +:+ t1)) by apply lookup_insert_eq.
  rewrite insert_insert_eq, app_assoc_s. reflexivity.
Qed.

Lemma emits_bind_raise {A B} f (c : IO A) (k : A -> IO B) t e :
  emits f c t (Raise e) -> emits f (bind c k) t (Raise e).
Proof. intros Hc fs pre H. unfold bind. rewrite (Hc fs pre H). reflexivity. Qed.

Lemma appends_bind {A B} f (c : IO A) (k : A -> IO B) :
  appends f c -> (forall a, appends f (k a)) -> appends f (bind c k).
Proof.
  intros (t1 & [a|e] & Hc) Hk.
  - destruct (Hk a) as (t2 & r & Hka). exists (t1 +:+ t2), r.
    eapply emits_bind_ok; eassumption.
  - exists t1, (Raise e). apply emits_bind_raise. exact Hc.
Qed.

Lemma appends_lift {A} f (o : outcome A) : appends f (lift o).
Proof. exists "", o. apply emits_lift. Qed.

Lemma appends_ret {A} f (a : A) : appends f (ret a).
Proof. exists "", (Ok a). apply emits_ret. Qed.

Lemma appends_write f t : appends f (write f t).
Proof. exists t, (Ok tt). apply emits_write. Qed.

Lemma appends_for_each {A} f (xs : list A) body :
  (forall x, appends f (body x)) -> appends f (for_each xs body).
Proof.
  intros Hb. induction xs as [|x xs IH]; simpl.
  - apply appends_ret.
  - apply appends_bind; [apply Hb | intros _; exact IH].
Qed.

Lemma emits_fun {A} f (c : IO A) t1 r1 t2 r2 :
  emits f c t1 r1 -> emits f c t2 r2 -> t1 = t2 /\ r1 = r2.
Proof.
  intros H1 H2.
  pose proof (H1 {[f := ""]} "" (lookup_singleton_eq f "")) as E1.
  pose proof (H2 {[f := ""]} "" (lookup_singleton_eq f "")) as E2.
  rewrite E1 in E2.
  pose proof (f_equal (fun x => fst x !! f) E2) as Efs.
  pose proof (f_equal snd E2) as Er. simpl in Efs, Er.
  rewrite !lookup_insert_eq in Efs. injection Efs as E. split; assumption.
Qed.

Lemma emits_text {A} f (c : IO A) t t' r : emits f c t r -> t = t' -> emits f c t' r.
Proof. intros H <-. exact H. Qed.

Lemma emits_lift_ok {A B} f (o : outcome A) (k : A -> IO B) a t r :
  o = Ok a -> emits f (k a) t r -> emits f (bind (lift o) k) t r.
Proof.
  intros -> Hk. eapply emits_text.
  - eapply emits_bind_ok; [apply emits_lift | exact Hk].
  - reflexivity.
Qed.

Lemma emits_for_each {A} f (xs : list A) (body : A -> IO unit) (g : A -> string) :
  (forall x, In x xs -> emits f (body x) (g x) (Ok tt)) ->
  emits f (for_each xs body) (cat (map g xs)) (Ok tt).
Proof.
  induction xs as [|x xs IH]; intros Hb; simpl.
  - apply emits_ret.
  - eapply emits_bind_ok.
    + apply Hb. left. reflexivity.
    + apply IH. intros y Hy. apply Hb. right. exact Hy.
Qed.

(** ** Loop indices *)

Lemma range_step1 (n : nat) : range 0 n 1 = seq 0 n.
Proof.
  unfold range. rewrite Nat.sub_0_r, Nat.sub_diag, Nat.add_0_r, Nat.div_1_r.
  rewrite <- (map_id (seq 0 n)) at 2. apply map_ext. intros k. lia.
Qed.

Lemma range_step2 (n : nat) :
  range 0 (2 * n) 2 = map (fun k => (2 * k)%nat) (seq 0 n).
Proof.
  unfold range. rewrite Nat.sub_0_r.
  replace ((2 * n + (2 - 1)) / 2)%nat with n.
  - apply map_ext. intros k. lia.
  - apply (Nat.div_unique _ 2 n 1); lia.
Qed.

Lemma map_nth_seq {A B} (h : A -> B) (d : A) (p l : list A) :
  map (fun i => h (nth i (p ++ l) d)) (seq (length p) (length l)) = map h l.
Proof.
  revert p. induction l as [|x l IH]; intros p; [reflexivity|].
  simpl. f_equal.
  - rewrite app_nth2, Nat.sub_diag by lia. reflexivity.
  - specialize (IH (p ++ [x])). rewrite length_app in IH. simpl in IH.
    rewrite Nat.add_1_r, <- app_assoc in IH. exact IH.
Qed.

(** A literal per element and a comma after each but the last: the text
    is the literals joined by commas. *)
Lemma cat_separated_from {A} (h : A -> string) (d : A) (L l p : list A) :
  L = p ++ l ->
  cat (map (fun k => h (nth k L d)
                     +:+ (if (S k =? length L)%nat then "" else ","))
           (seq (length p) (length l)))
  = String.concat "," (map h l).
Proof.
  revert p. induction l as [|x l IH]; intros p HL; [reflexivity|].
  assert (length (p ++ [x]) = S (length p)) as Hlen
    by (rewrite length_app; cbn [length]; lia).
  assert (L = (p ++ [x]) ++ l) as HL'
    by (rewrite <- app_assoc; exact HL).
  specialize (IH (p ++ [x]) HL'). rewrite Hlen in IH.
  change (seq (length p) (length (x :: l)))
    with (length p :: seq (S (length p)) (length l)).
  cbn [map]. unfold cat. cbn [fold_right]. fold (@cat).
  unfold cat in IH. rewrite IH.
  assert (nth (length p) L d = x) as ->
    by (rewrite HL, app_nth2, Nat.sub_diag by lia; reflexivity).
  assert (length L = (length p + S (length l))%nat) as ->
    by (rewrite HL, length_app; reflexivity).
  destruct (Nat.eqb_spec (S (length p)) (length p + S (length l))) as [E|E].
  - destruct l; [|cbn [length] in E; lia].
    cbn. rewrite !app_nil_r_s. reflexivity.
  - destruct l as [|y l]; [cbn [length] in E; lia|].
    cbn [map String.concat]. rewrite app_assoc_s. reflexivity.
Qed.

Lemma cat_separated {A} (h : A -> string) (d : A) (l : list A) :
  cat (map (fun k => h (nth k l d)
                     +:+ (if (S k =? length l)%nat then "" else ","))
           (seq 0 (length l)))
  = String.concat "," (map h l).
Proof. exact (cat_separated_from h d l l [] eq_refl). Qed.

(** ** The hexadecimal text of the buffer *)

Lemma hex_app (xs ys : list Z) : hex (xs ++ ys) = hex xs +:+ hex ys.
Proof.
  induction xs as [|x xs IH]; [reflexivity|].
  cbn [app hex]. rewrite IH, app_assoc_s. reflexivity.
Qed.

Lemma length_hex (bs : list Z) : String.length (hex bs) = (2 * length bs)%nat.
Proof.
  induction bs as [|b bs IH]; [reflexivity|].
  cbn [hex]. rewrite length_app_s, IH. cbn [length byte_hex String.length]. lia.
Qed.

Lemma substring_hex (bs : list Z) (k : nat) (b : Z) :
  nth_error bs k = Some b -> substring (2 * k) 2 (hex bs) = byte_hex b.
Proof.
  intros H. apply nth_error_split in H as (p & q & -> & <-).
  rewrite hex_app, <- length_hex, substring_skip.
  cbn [hex]. unfold byte_hex. rewrite !app_cons_s. cbn [substring].
  destruct ("" +:+ hex q); reflexivity.
Qed.

Lemma tobytes_byte_kind (a : ndarray) :
  dtype a = int8 \/ dtype a = uint8 ->
  tobytes a = map (fun v => v mod 256) (elems a).
Proof.
  intros Hk. unfold tobytes.
  assert (itemsize (dtype a) = 1%nat) as -> by (destruct Hk as [-> | ->]; reflexivity).
  induction (elems a) as [|x l IH]; [reflexivity|].
  simpl. f_equal; exact IH.
Qed.

(** ** Running single steps *)

Lemma bind_run {A B} (c : IO A) (k : A -> IO B) (fs fs' : FS) (a : A) :
  c fs = (fs', Ok a) -> bind c k fs = k a fs'.
Proof. intros H. unfold bind. rewrite H. reflexivity. Qed.

Lemma open_a_run (p : string) (fs : FS) :
  open_a p fs = (<[p := default "" (fs !! p)]> fs, Ok tt).
Proof.
  unfold open_a. destruct (fs !! p) as [x|] eqn:E; cbn [default].
  - rewrite insert_id by exact E. reflexivity.
  - reflexivity.
Qed.

Lemma write_run (p t : string) (fs : FS) :
  write p t fs = (<[p := default "" (fs !! p) +:+ t]> fs, Ok tt).
Proof. reflexivity. Qed.

(** ** Reading literals back *)

Lemma app_inv_tail_s (s t u : string) : s +:+ u = t +:+ u -> s = t.
Proof.
  revert t. induction s as [|c s IH]; intros [|d t] H.
  - reflexivity.
  - apply (f_equal String.length) in H. change ("" +:+ u) with u in H.
    rewrite app_cons_s in H. cbn [String.length] in H.
    rewrite length_app_s in H. lia.
  - apply (f_equal String.length) in H. change ("" +:+ u) with u in H.
    rewrite app_cons_s in H. cbn [String.length] in H.
    rewrite length_app_s in H. lia.
  - rewrite !app_cons_s in H. injection H as -> H. f_equal. apply IH. exact H.
Qed.

Lemma hex_digit_not_comma (n : Z) : Ascii.eqb (hex_digit n) "," = false.
Proof.
  destruct n as [|p|p]; [reflexivity| |reflexivity].
  do 4 (try destruct p as [p|p|]); reflexivity.
Qed.



Lemma has_comma_app (s t : string) :
  has_comma (s +:+ t) = has_comma s || has_comma t.
Proof.
  induction s as [|c s IH]; [reflexivity|].
  rewrite app_cons_s. cbn [has_comma]. rewrite IH, orb_assoc. reflexivity.
Qed.

Lemma has_comma_byte_hex (b : Z) : has_comma (byte_hex b) = false.
Proof.
  unfold byte_hex. cbn [has_comma]. rewrite !hex_digit_not_comma. reflexivity.
Qed.

Lemma has_comma_byte_literal (v : Z) : has_comma (byte_literal v) = false.
Proof.
  unfold byte_literal.
  destruct (v <? 0); rewrite has_comma_app, has_comma_byte_hex; reflexivity.
Qed.


Lemma has_comma_uint (d : Decimal.uint) :
  has_comma (NilEmpty.string_of_uint d) = false.
Proof. induction d; cbn; auto. Qed.

Lemma has_comma_str_int (z : Z) : has_comma (str_int z) = false.
Proof.
  unfold str_int.
  destruct (Z.to_int z) as [d|d]; cbn;
    destruct d; cbn; auto using has_comma_uint.
Qed.


Lemma split_commas_plain (s : string) :
  has_comma s = false -> split_commas s = [s].
Proof.
  induction s as [|c s IH]; [reflexivity|].
  cbn. destruct (Ascii.eqb c ","); [discriminate|].
  cbn. intros H. rewrite (IH H). reflexivity.
Qed.

Lemma split_commas_piece (s rest : string) :
  has_comma s = false ->
  split_commas (s +:+ "," +:+ rest) = s :: split_commas rest.
Proof.
  induction s as [|c s IH]; [reflexivity|].
  rewrite app_cons_s. cbn. destruct (Ascii.eqb c ","); [discriminate|].
  cbn. intros H. rewrite (IH H). reflexivity.
Qed.

Lemma tokens_terminated {A} (g : A -> string) (xs : list A) :
  Forall (fun x => has_comma (g x) = false) xs ->
  tokens (cat (map (fun x => g x +:+ ",") xs)) = map g xs.
Proof.
  intros H.
  assert (split_commas (cat (map (fun x => g x +:+ ",") xs)) = map g xs ++ [""]) as E.
  { induction H as [|x xs Hx _ IH]; [reflexivity|].
    cbn [map cat fold_right]. fold (cat (map (fun x => g x +:+ ",") xs)).
    rewrite app_assoc_s, split_commas_piece, IH by exact Hx. reflexivity. }
  unfold tokens. rewrite E, last_snoc. apply removelast_last.
Qed.

Lemma split_commas_joined {A} (h : A -> string) (x : A) (l : list A) :
  Forall (fun x => has_comma (h x) = false) (x :: l) ->
  split_commas (String.concat "," (map h (x :: l))) = map h (x :: l).
Proof.
  revert x. induction l as [|y l IH]; intros x H.
  - cbn. apply split_commas_plain. inversion H; assumption.
  - inversion H as [|? ? Hx Hl]; subst.
    change (String.concat "," (map h (x :: y :: l)))
      with (h x +:+ "," +:+ String.concat "," (map h (y :: l))).
    rewrite split_commas_piece, IH by assumption. reflexivity.
Qed.

Lemma last_map_nonempty {A} (h : A -> string) (l : list A) :
  Forall (fun x => h x <> "") l -> last (map h l) <> Some "".
Proof.
  induction l as [|x l IH]; intros H; [discriminate|].
  inversion H as [|? ? Hx Hl]; subst.
  destruct l as [|y l].
  - cbn. intros [= E]. contradiction.
  - apply IH. exact Hl.
Qed.

Lemma tokens_joined {A} (h : A -> string) (l : list A) :
  Forall (fun x => has_comma (h x) = false /\ h x <> "") l ->
  tokens (String.concat "," (map h l)) = map h l.
Proof.
  intros H. destruct l as [|x l]; [reflexivity|].
  unfold tokens. rewrite split_commas_joined.
  - destruct (last (map h (x :: l))) as [t|] eqn:E; [|reflexivity].
    destruct t; [|reflexivity].
    exfalso. revert E. apply last_map_nonempty.
    eapply Forall_impl; [exact H|]. intros z [_ Hz]. exact Hz.
  - eapply Forall_impl; [exact H|]. intros z [Hz _]. exact Hz.
Qed.


(** ** The loops of the emitter *)

Section EmitterFacts.

Variable with_suffix : string -> string -> string.
Variable numpy_str : np_dtype -> Z -> string.
Variable ndarray_str : ndarray -> string.

Lemma write_words_emits f dt (flat : list Z) :
  emits f (write_words numpy_str f dt flat)
    (cat (map (fun v => scalar_str numpy_str dt v +:+ ",") flat)) (Ok tt).
Proof.
  unfold write_words. rewrite range_step1.
  eapply emits_text.
  - apply (emits_for_each f (seq 0 (length flat)) _
             (fun i => scalar_str numpy_str dt (nth i flat 0) +:+ ",")).
    intros i Hi. apply in_seq in Hi.
    eapply emits_lift_ok.
    + unfold getitem. rewrite (nth_error_nth' flat 0) by lia. reflexivity.
    + apply emits_write.
  - f_equal.
    exact (map_nth_seq (fun v => scalar_str numpy_str dt v +:+ ",") 0 [] flat).
Qed.

Lemma write_byte_literal_emits f (flat : list Z) (k : nat) (v : Z) :
  nth_error flat k = Some v -> -128 <= v <= 255 ->
  emits f (write_byte_literal f (hex (map (fun x => x mod 256) flat)) flat (2 * k))
    (byte_literal v) (Ok tt).
Proof.
  intros Hk Hv. unfold write_byte_literal, byte_literal.
  assert ((2 * k) / 2 = k)%nat as ->
    by (rewrite Nat.mul_comm; apply Nat.div_mul; lia).
  eapply emits_lift_ok; [unfold getitem; rewrite Hk; reflexivity|].
  destruct (Z.ltb_spec v 0) as [Hneg|Hpos].
  - eapply emits_lift_ok.
    + unfold to_bytes1.
      assert (Z.lnot v + 1 = - v) as -> by (unfold Z.lnot; lia).
      replace ((0 <=? - v) && (- v <=? 255)) with true; [reflexivity|].
      symmetry. apply andb_true_iff. split; apply Z.leb_le; lia.
    + assert (Z.lnot v + 1 = - v) as -> by (unfold Z.lnot; lia).
      eapply emits_text; [apply emits_write|].
      cbn [hex]. rewrite app_nil_r_s. reflexivity.
  - eapply emits_text; [apply emits_write|].
    rewrite (substring_hex _ k (v mod 256)); [reflexivity|].
    rewrite nth_error_map, Hk. reflexivity.
Qed.

Lemma write_separator_emits f (flat : list Z) (k : nat) :
  emits f (write_separator f flat (2 * k))
    (if (S k =? length flat)%nat then "" else ",") (Ok tt).
Proof.
  unfold write_separator.
  destruct (Nat.eqb_spec (S k) (length flat)) as [E|E].
  - rewrite bool_decide_eq_false_2 by lia. apply emits_ret.
  - rewrite bool_decide_eq_true_2 by lia. apply emits_write.
Qed.

Lemma write_bytes_emits f (flat : list Z) :
  Forall (fun v => -128 <= v <= 255) flat ->
  emits f (write_bytes f (hex (map (fun x => x mod 256) flat)) flat)
    (String.concat "," (map byte_literal flat)) (Ok tt).
Proof.
  intros Hr. unfold write_bytes.
  rewrite length_hex, length_map, range_step2, <- (cat_separated byte_literal 0).
  set (g := fun k => byte_literal (nth k flat 0)
                     +:+ (if (S k =? length flat)%nat then "" else ",")).
  eapply emits_text.
  - apply (emits_for_each f (map (fun k => (2 * k)%nat) (seq 0 (length flat))) _
             (fun i => g (i / 2)%nat)).
    intros i Hi. apply in_map_iff in Hi as (k & <- & Hk). apply in_seq in Hk.
    assert ((2 * k) / 2 = k)%nat as ->
      by (rewrite Nat.mul_comm; apply Nat.div_mul; lia).
    assert (nth_error flat k = Some (nth k flat 0)) as Hnth
      by (apply nth_error_nth'; lia).
    eapply emits_bind_ok.
    + apply write_byte_literal_emits; [exact Hnth|].
      rewrite Forall_forall in Hr. apply Hr.
      apply list_elem_of_In. eapply nth_error_In. exact Hnth.
    + apply write_separator_emits.
  - f_equal. rewrite map_map. apply map_ext. intros k.
    assert ((2 * k) / 2 = k)%nat as ->
      by (rewrite Nat.mul_comm; apply Nat.div_mul; lia).
    reflexivity.
Qed.

Lemma byte_range (a : ndarray) :
  wf_ndarray a -> dtype a = int8 \/ dtype a = uint8 ->
  Forall (fun v => -128 <= v <= 255) (elems a).
Proof.
  intros [_ Hr] Hk. eapply Forall_impl; [exact Hr|].
  intros v Hv. destruct Hk as [E|E]; rewrite E in Hv; simpl in Hv; lia.
Qed.

Lemma write_initializer_emits f (a : ndarray) :
  wf_ndarray a -> supported (dtype a) ->
  emits f (write_initializer numpy_str f a)
    (literal_list numpy_str a +:+ "};" +:+ LF +:+ LF) (Ok tt).
Proof.
  intros Hwf Hs. unfold write_initializer, literal_list.
  destruct (dtype a) as [| | | |n] eqn:E; try contradiction; cbn [orb];
    rewrite ?bool_decide_eq_true_2 by reflexivity;
    rewrite ?bool_decide_eq_false_2 by discriminate; cbn [orb].
  - eapply emits_bind_ok; [apply write_words_emits | apply emits_write].
  - rewrite tobytes_byte_kind by auto.
    eapply emits_bind_ok; [|apply emits_write].
    apply write_bytes_emits, byte_range; auto.
  - rewrite tobytes_byte_kind by auto.
    eapply emits_bind_ok; [|apply emits_write].
    apply write_bytes_emits, byte_range; auto.
  - eapply emits_bind_ok; [apply write_words_emits | apply emits_write].
Qed.

Ltac appends_steps :=
  repeat first
    [ apply appends_write
    | apply appends_ret
    | apply appends_lift
    | apply appends_for_each; intros
    | apply appends_bind; [|intros]
    | match goal with
      | |- appends _ (if ?b then _ else _) => destruct b
      | |- appends _ (match ?w with Some _ => _ | None => _ end) => destruct w
      end ].

Lemma write_initializer_appends f (a : ndarray) :
  appends f (write_initializer numpy_str f a).
Proof.
  unfold write_initializer, write_words, write_bytes, write_byte_literal,
    write_separator.
  appends_steps.
Qed.

Lemma dump_appends f (a : ndarray) (debug : bool) (w : option ndarray) :
  appends f (dump numpy_str ndarray_str f a debug w).
Proof.
  unfold dump, dump_tensor, dump_weights, shape_at, index4.
  appends_steps.
Qed.

(** The whole call, once the kind is resolved: the header file gets the
    two declaration lines, the source file gets the include line when it
    is new, then the opening line and whatever the rest appends. *)
Lemma create_header_file_run name section tensor_name (a : ndarray) output_path
    debug weights ty al t r (fs : FS) :
  let hp := raw_header_path with_suffix output_path name in
  let sp := raw_source_path with_suffix output_path name in
  hp <> sp ->
  resolve_type (dtype a) = Ok (ty, al) ->
  emits sp (write_initializer numpy_str sp a ;;
            dump numpy_str ndarray_str sp a debug weights) t r ->
  create_header_file with_suffix numpy_str ndarray_str
    name section tensor_name a output_path debug weights fs
  = (<[sp := default ("#include <stdint.h>" +:+ LF) (fs !! sp)
             +:+ opening_line ty tensor_name section al +:+ t]>
       (<[hp := default "" (fs !! hp) +:+ header_text ty tensor_name a]> fs), r).
Proof.
  intros hp sp Hne Hres Hrest. unfold create_header_file.
  fold hp. fold sp. rewrite Hres. cbn [fst snd].
  set (htxt := header_text ty tensor_name a).
  set (otxt := opening_line ty tensor_name section al).
  set (fs2 := <[hp := default "" (fs !! hp) +:+ htxt]> fs).
  assert (fs2 !! sp = fs !! sp) as Hsp
    by (unfold fs2; apply lookup_insert_ne; exact Hne).
  rewrite (bind_run _ _ fs fs (ty, al)) by reflexivity. cbn [fst snd].
  rewrite (bind_run _ _ fs _ tt (open_a_run hp fs)).
  rewrite (bind_run _ _ _ _ tt (write_run hp htxt _)).
  rewrite lookup_insert_eq, insert_insert_eq. cbn [default]. fold fs2.
  rewrite (bind_run _ _ fs2 fs2 (bool_decide (is_Some (fs2 !! sp)))) by reflexivity.
  rewrite Hsp.
  destruct (fs !! sp) as [src|] eqn:Es; cbn [default].
  - rewrite bool_decide_eq_true_2 by eauto. cbn [negb].
    rewrite (bind_run _ _ fs2 fs2 tt) by reflexivity.
    rewrite (bind_run _ _ fs2 _ tt (open_a_run sp fs2)).
    rewrite (bind_run _ _ _ _ tt (write_run sp otxt _)).
    rewrite lookup_insert_eq, insert_insert_eq, Hsp. cbn [default].
    rewrite (Hrest _ (src +:+ otxt)) by apply lookup_insert_eq.
    rewrite insert_insert_eq, app_assoc_s. reflexivity.
  - rewrite bool_decide_eq_false_2 by (intros [x Hx]; discriminate).
    cbn [negb].
    rewrite (bind_run _ _ fs2 (<[sp := "#include <stdint.h>" +:+ LF]> fs2) tt).
    2:{ rewrite (bind_run _ _ fs2 _ tt (open_a_run sp fs2)).
        rewrite write_run, lookup_insert_eq, insert_insert_eq, Hsp.
        reflexivity. }
    rewrite (bind_run _ _ _ _ tt (open_a_run sp _)).
    rewrite (bind_run _ _ _ _ tt (write_run sp otxt _)).
    rewrite !lookup_insert_eq, !insert_insert_eq. cbn [default].
    rewrite (Hrest _ (("#include <stdint.h>" +:+ LF) +:+ otxt))
      by apply lookup_insert_eq.
    rewrite insert_insert_eq, app_assoc_s. reflexivity.
Qed.


Lemma resolve_type_supported (dt : np_dtype) :
  supported dt -> exists ty al, resolve_type dt = Ok (ty, al).
Proof. destruct dt; intros H; try contradiction; cbn; eauto. Qed.

(** A supported kind: for some text [t] and outcome [r] that do not
    depend on the files, the call appends the declaration lines to the
    header and the opening line and [t] to the source. *)
Lemma create_header_file_supported name section tensor_name (a : ndarray)
    output_path debug weights :
  let hp := raw_header_path with_suffix output_path name in
  let sp := raw_source_path with_suffix output_path name in
  hp <> sp -> supported (dtype a) ->
  exists ty al t r,
    resolve_type (dtype a) = Ok (ty, al) /\
    emits sp (write_initializer numpy_str sp a ;;
              dump numpy_str ndarray_str sp a debug weights) t r /\
    forall fs : FS,
      create_header_file with_suffix numpy_str ndarray_str
        name section tensor_name a output_path debug weights fs
      = (<[sp := default ("#include <stdint.h>" +:+ LF) (fs !! sp)
                 +:+ opening_line ty tensor_name section al +:+ t]>
           (<[hp := default "" (fs !! hp) +:+ header_text ty tensor_name a]> fs), r).
Proof.
  intros hp sp Hne Hs.
  destruct (resolve_type_supported _ Hs) as (ty & al & Hres).
  assert (appends sp (write_initializer numpy_str sp a ;;
                      dump numpy_str ndarray_str sp a debug weights))
    as (t & r & Ht).
  { apply appends_bind; [apply write_initializer_appends|].
    intros _. apply dump_appends. }
  exists ty, al, t, r. split; [exact Hres|]. split; [exact Ht|].
  intros fs. apply create_header_file_run; assumption.
Qed.

(** A well-formed array of a supported kind: the text between the braces
    is [literal_list], the brace is closed, and the dump follows. *)
Lemma create_header_file_wf name section tensor_name (a : ndarray)
    output_path debug weights :
  let hp := raw_header_path with_suffix output_path name in
  let sp := raw_source_path with_suffix output_path name in
  hp <> sp -> wf_ndarray a -> supported (dtype a) ->
  exists ty al td r,
    resolve_type (dtype a) = Ok (ty, al) /\
    emits sp (dump numpy_str ndarray_str sp a debug weights) td r /\
    forall fs : FS,
      create_header_file with_suffix numpy_str ndarray_str
        name section tensor_name a output_path debug weights fs
      = (<[sp := default ("#include <stdint.h>" +:+ LF) (fs !! sp)
                 +:+ opening_line ty tensor_name section al
                 +:+ literal_list numpy_str a +:+ "};" +:+ LF +:+ LF +:+ td]>
           (<[hp := default "" (fs !! hp) +:+ header_text ty tensor_name a]> fs), r).
Proof.
  intros hp sp Hne Hwf Hs.
  destruct (resolve_type_supported _ Hs) as (ty & al & Hres).
  destruct (dump_appends sp a debug weights) as (td & r & Hd).
  exists ty, al, td, r. split; [exact Hres|]. split; [exact Hd|].
  intros fs. apply create_header_file_run; [exact Hne | exact Hres |].
  eapply emits_text.
  - eapply emits_bind_ok; [apply write_initializer_emits; assumption | exact Hd].
  - rewrite !app_assoc_s. reflexivity.
Qed.

Lemma dump_off f (a : ndarray) (w : option ndarray) t r :
  emits f (dump numpy_str ndarray_str f a false w) t r -> t = "" /\ r = Ok tt.
Proof. intros H. exact (emits_fun _ _ _ _ _ _ H (emits_ret f tt)). Qed.

(** ** The claims *)

Lemma create_header_file_unsupported name section tensor_name (a : ndarray)
    output_path debug weights (fs : FS) (n : string) :
  dtype a = other_dtype n ->
  create_header_file with_suffix numpy_str ndarray_str
    name section tensor_name a output_path debug weights fs
  = (fs, Raise (AssertionError ("Type " +:+ n +:+ " is not supported!"))).
Proof. intros E. unfold create_header_file. rewrite E. reflexivity. Qed.

(** C5. An array whose element kind is none of float32, int8, uint8 and
    uint32 makes the call raise the assertion error of line 83 and leaves
    the file system as it was: neither artifact is written or created. *)
Theorem unsupported_kind_writes_nothing name section tensor_name (a : ndarray)
    output_path debug weights (fs : FS) :
  ~ supported (dtype a) ->
  let r := create_header_file with_suffix numpy_str ndarray_str
             name section tensor_name a output_path debug weights fs in
  r = (fs, Raise (AssertionError
                    ("Type " +:+ dtype_name (dtype a) +:+ " is not supported!")))
  /\ fst r !! raw_header_path with_suffix output_path name
     = fs !! raw_header_path with_suffix output_path name
  /\ fst r !! raw_source_path with_suffix output_path name
     = fs !! raw_source_path with_suffix output_path name.
Proof.
  intros Hs r.
  assert (r = (fs, Raise (AssertionError
                 ("Type " +:+ dtype_name (dtype a) +:+ " is not supported!")))) as E.
  { destruct (dtype a) as [| | | |n] eqn:E; try (exfalso; apply Hs; exact I).
    unfold r. eapply create_header_file_unsupported. exact E. }
  rewrite E. auto.
Qed.


Lemma run_lookup_source (fs : FS) (hp sp x y : string) :
  (<[sp := x]> (<[hp := y]> fs) : FS) !! sp = Some x.
Proof. apply lookup_insert_eq. Qed.

Lemma run_lookup_header (fs : FS) (hp sp x y : string) :
  hp <> sp -> (<[sp := x]> (<[hp := y]> fs) : FS) !! hp = Some y.
Proof.
  intros H. rewrite lookup_insert_ne by (intros E; apply H; symmetry; exact E).
  apply lookup_insert_eq.
Qed.

(** C8. The element kind resolves to the C type name and the alignment of
    the table (float32: float, 32; int8: int8_t, 16; uint8: uint8_t, 16;
    uint32: uint32_t, 16); the type name is the one in the extern
    declaration appended to the header, the alignment is the one in the
    aligned(...) clause of the opening line appended to the source. *)
Theorem kind_resolves_to_type_and_alignment name section tensor_name
    (a : ndarray) output_path debug weights (fs : FS) :
  let hp := raw_header_path with_suffix output_path name in
  let sp := raw_source_path with_suffix output_path name in
  let fs' := fst (create_header_file with_suffix numpy_str ndarray_str
                    name section tensor_name a output_path debug weights fs) in
  hp <> sp -> supported (dtype a) ->
  exists ty al rest,
    (dtype a = float32 /\ ty = "float" /\ al = 32
     \/ dtype a = int8 /\ ty = "int8_t" /\ al = 16
     \/ dtype a = uint8 /\ ty = "uint8_t" /\ al = 16
     \/ dtype a = uint32 /\ ty = "uint32_t" /\ al = 16) /\
    resolve_type (dtype a) = Ok (ty, al) /\
    fs' !! hp = Some (default "" (fs !! hp)
                      +:+ "#define " +:+ tensor_name +:+ "_len "
                      +:+ str_int (Z.of_nat (size a)) +:+ LF
                      +:+ "extern " +:+ ty +:+ " " +:+ tensor_name +:+ "["
                      +:+ tensor_name +:+ "_len];" +:+ LF) /\
    fs' !! sp = Some (default ("#include <stdint.h>" +:+ LF) (fs !! sp)
                      +:+ ty +:+ " " +:+ tensor_name +:+ "[] __attribute__(("
                      +:+ (if truthy section
                           then "section(" +:+ DQUOTE +:+ section_text section
                                +:+ DQUOTE +:+ "), "
                           else "")
                      +:+ "aligned(" +:+ str_int al +:+ "))) = {" +:+ rest).
Proof.
  intros hp sp fs' Hne Hs.
  destruct (create_header_file_supported name section tensor_name a output_path
              debug weights Hne Hs) as (ty & al & t & r & Hres & _ & Hrun).
  exists ty, al, t. split; [|split; [exact Hres|]].
  - destruct (dtype a); try contradiction; cbn in Hres; injection Hres as <- <-;
      auto 10.
  - unfold fs'. rewrite Hrun. cbn [fst]. fold hp. fold sp. split.
    + rewrite run_lookup_header by exact Hne. unfold header_text.
      rewrite !app_assoc_s. reflexivity.
    + rewrite run_lookup_source. unfold opening_line.
      destruct (truthy section); rewrite !app_assoc_s; reflexivity.
Qed.

(** C7. When the section argument is absent or empty the attribute of the
    opening line holds the aligned(...) clause alone; when it is a
    non-empty string [s] the attribute holds section("s"), with [s] as it
    was given, followed by the aligned(...) clause. *)
Theorem section_clause_gating name section tensor_name (a : ndarray)
    output_path debug weights (fs : FS) :
  let hp := raw_header_path with_suffix output_path name in
  let sp := raw_source_path with_suffix output_path name in
  let fs' := fst (create_header_file with_suffix numpy_str ndarray_str
                    name section tensor_name a output_path debug weights fs) in
  hp <> sp -> supported (dtype a) ->
  exists ty al rest,
    resolve_type (dtype a) = Ok (ty, al) /\
    (section = None \/ section = Some "" ->
     fs' !! sp = Some (default ("#include <stdint.h>" +:+ LF) (fs !! sp)
                       +:+ ty +:+ " " +:+ tensor_name
                       +:+ "[] __attribute__((aligned(" +:+ str_int al
                       +:+ "))) = {" +:+ rest)) /\
    (forall s, section = Some s -> s <> "" ->
     fs' !! sp = Some (default ("#include <stdint.h>" +:+ LF) (fs !! sp)
                       +:+ ty +:+ " " +:+ tensor_name
                       +:+ "[] __attribute__((section(" +:+ DQUOTE +:+ s +:+ DQUOTE
                       +:+ "), aligned(" +:+ str_int al +:+ "))) = {" +:+ rest)).
Proof.
  intros hp sp fs' Hne Hs.
  destruct (create_header_file_supported name section tensor_name a output_path
              debug weights Hne Hs) as (ty & al & t & r & Hres & _ & Hrun).
  exists ty, al, t. split; [exact Hres|].
  unfold fs'. rewrite Hrun. cbn [fst]. fold hp. fold sp.
  rewrite run_lookup_source. unfold opening_line. split.
  - intros [-> | ->]; cbn [truthy]; rewrite !app_assoc_s; reflexivity.
  - intros s -> Hne_s. destruct s as [|c s]; [contradiction|].
    cbn [truthy section_text default]. rewrite !app_assoc_s. reflexivity.
Qed.

(** C6. A well-formed array of a supported kind with no element: the
    opening line ends with the opening brace and the closing brace and
    semicolon follow it at once, so the initializer reads {} with no
    literal and no comma in it. *)
Theorem empty_array_initializer name section tensor_name (a : ndarray)
    output_path debug weights (fs : FS) :
  let hp := raw_header_path with_suffix output_path name in
  let sp := raw_source_path with_suffix output_path name in
  let fs' := fst (create_header_file with_suffix numpy_str ndarray_str
                    name section tensor_name a output_path debug weights fs) in
  hp <> sp -> wf_ndarray a -> supported (dtype a) -> size a = 0%nat ->
  exists ty al head dumptext,
    resolve_type (dtype a) = Ok (ty, al) /\
    opening_line ty tensor_name section al = head +:+ "{" /\
    fs' !! sp = Some (default ("#include <stdint.h>" +:+ LF) (fs !! sp)
                      +:+ head +:+ "{};" +:+ LF +:+ LF +:+ dumptext) /\
    (debug = false -> dumptext = "").
Proof.
  intros hp sp fs' Hne Hwf Hs Hsize.
  destruct (create_header_file_wf name section tensor_name a output_path
              debug weights Hne Hwf Hs) as (ty & al & td & r & Hres & Hd & Hrun).
  assert (elems a = []) as Hnil.
  { destruct Hwf as [Hlen _]. unfold size in Hsize. rewrite Hsize in Hlen.
    destruct (elems a); [reflexivity | discriminate]. }
  assert (literal_list numpy_str a = "") as Hlit.
  { unfold literal_list, flatten. rewrite Hnil. destruct (dtype a); reflexivity. }
  exists ty, al,
    (if truthy section
     then ty +:+ " " +:+ tensor_name +:+ "[] __attribute__((section(" +:+ DQUOTE
          +:+ section_text section +:+ DQUOTE +:+ "), aligned(" +:+ str_int al
          +:+ "))) = "
     else ty +:+ " " +:+ tensor_name +:+ "[] __attribute__((aligned("
          +:+ str_int al +:+ "))) = "), td.
  assert (opening_line ty tensor_name section al
          = (if truthy section
             then ty +:+ " " +:+ tensor_name +:+ "[] __attribute__((section("
                  +:+ DQUOTE +:+ section_text section +:+ DQUOTE
                  +:+ "), aligned(" +:+ str_int al +:+ "))) = "
             else ty +:+ " " +:+ tensor_name +:+ "[] __attribute__((aligned("
                  +:+ str_int al +:+ "))) = ") +:+ "{") as Hopen.
  { unfold opening_line. destruct (truthy section);
      rewrite !app_assoc_s; reflexivity. }
  split; [exact Hres|]. split; [exact Hopen|]. split.
  - unfold fs'. rewrite Hrun. cbn [fst]. fold hp. fold sp.
    rewrite run_lookup_source, Hlit, Hopen.
    rewrite !app_assoc_s. reflexivity.
  - intros ->. apply (dump_off _ _ _ _ _ Hd).
Qed.

(** C4 (amended). A well-formed array of shape (1,) of a supported kind
    has one element [v].  For int8 and uint8 the initializer is the
    literal of [v] followed at once by the closing brace and semicolon;
    for float32 and uint32 it is the text of [v], then a comma, then the
    closing brace and semicolon. *)
Theorem single_element_initializer name section tensor_name (a : ndarray)
    output_path debug weights (fs : FS) :
  let hp := raw_header_path with_suffix output_path name in
  let sp := raw_source_path with_suffix output_path name in
  let fs' := fst (create_header_file with_suffix numpy_str ndarray_str
                    name section tensor_name a output_path debug weights fs) in
  hp <> sp -> wf_ndarray a -> supported (dtype a) -> shape a = [1%nat] ->
  exists v ty al dumptext,
    flatten a = [v] /\
    resolve_type (dtype a) = Ok (ty, al) /\
    fs' !! sp = Some (default ("#include <stdint.h>" +:+ LF) (fs !! sp)
                      +:+ opening_line ty tensor_name section al
                      +:+ (match dtype a with
                           | int8 | uint8 => byte_literal v
                           | _ => scalar_str numpy_str (dtype a) v +:+ ","
                           end)
                      +:+ "};" +:+ LF +:+ LF +:+ dumptext).
Proof.
  intros hp sp fs' Hne Hwf Hs Hshape.
  destruct (create_header_file_wf name section tensor_name a output_path
              debug weights Hne Hwf Hs) as (ty & al & td & r & Hres & Hd & Hrun).
  assert (exists v, elems a = [v]) as (v & Hv).
  { destruct Hwf as [Hlen _]. rewrite Hshape in Hlen. cbn in Hlen.
    destruct (elems a) as [|v [|? ?]]; try discriminate. eauto. }
  exists v, ty, al, td. split; [exact Hv|]. split; [exact Hres|].
  unfold fs'. rewrite Hrun. cbn [fst]. fold hp. fold sp.
  rewrite run_lookup_source. do 3 f_equal.
  unfold literal_list, flatten. rewrite Hv.
  destruct (dtype a); try contradiction; cbn [map cat fold_right String.concat];
    rewrite ?app_nil_r_s, ?app_assoc_s; reflexivity.
Qed.

Lemma emits_seq_inv {A} f (c : IO unit) (k : IO A) t (a : A) :
  appends f c -> appends f k -> emits f (c ;; k) t (Ok a) ->
  exists t1 t2, emits f c t1 (Ok tt) /\ emits f k t2 (Ok a) /\ t = t1 +:+ t2.
Proof.
  intros (t1 & [[]|e] & Hc) (t2 & r2 & Hk) H.
  - destruct (emits_fun _ _ _ _ _ _ H (emits_bind_ok f c (fun _ => k) _ _ _ _ Hc Hk))
      as [-> <-].
    exists t1, t2. auto.
  - destruct (emits_fun _ _ _ _ _ _ H (emits_bind_raise f c (fun _ => k) _ _ Hc))
      as [_ ?]. discriminate.
Qed.

(** A call of [write_initializer] that returns has closed the brace. *)
Lemma write_initializer_closes f (a : ndarray) t :
  emits f (write_initializer numpy_str f a) t (Ok tt) ->
  exists body, t = body +:+ "};" +:+ LF +:+ LF.
Proof.
  unfold write_initializer. intros H.
  destruct (bool_decide (dtype a = float32) || bool_decide (dtype a = uint32)).
  - apply emits_seq_inv in H as (t1 & t2 & _ & H2 & ->).
    + destruct (emits_fun _ _ _ _ _ _ H2 (emits_write f _)) as [-> _]. eauto.
    + unfold write_words. appends_steps.
    + apply appends_write.
  - apply emits_seq_inv in H as (t1 & t2 & _ & H2 & ->).
    + destruct (emits_fun _ _ _ _ _ _ H2 (emits_write f _)) as [-> _]. eauto.
    + unfold write_bytes, write_byte_literal, write_separator. appends_steps.
    + apply appends_write.
Qed.

(** C9. A call that returns leaves what the two files held in place and
    appends after it: the header gets exactly the #define line and the
    extern line; the source gets the #include line only when it did not
    exist, then one block (opening line, literals, closing brace, dump);
    no other file changes.  The same call once more returns again and
    leaves two pairs of lines in the header and two blocks in the source,
    with the #include line not repeated. *)
Theorem append_only_accumulation name section tensor_name (a : ndarray)
    output_path debug weights (fs : FS) :
  let hp := raw_header_path with_suffix output_path name in
  let sp := raw_source_path with_suffix output_path name in
  let emit := create_header_file with_suffix numpy_str ndarray_str
                name section tensor_name a output_path debug weights in
  hp <> sp ->
  snd (emit fs) = Ok tt ->
  exists ty al body dumptext,
    let decl := ("#define " +:+ tensor_name +:+ "_len "
                 +:+ str_int (Z.of_nat (size a)) +:+ LF)
                +:+ ("extern " +:+ ty +:+ " " +:+ tensor_name +:+ "["
                     +:+ tensor_name +:+ "_len];" +:+ LF) in
    let block := opening_line ty tensor_name section al
                 +:+ body +:+ "};" +:+ LF +:+ LF +:+ dumptext in
    let start := match fs !! sp with
                 | Some old => old
                 | None => "#include <stdint.h>" +:+ LF
                 end in
    let fs1 := fst (emit fs) in
    let fs2 := fst (emit fs1) in
    resolve_type (dtype a) = Ok (ty, al) /\
    fs1 !! hp = Some (default "" (fs !! hp) +:+ decl) /\
    fs1 !! sp = Some (start +:+ block) /\
    (forall p, p <> hp -> p <> sp -> fs1 !! p = fs !! p) /\
    snd (emit fs1) = Ok tt /\
    fs2 !! hp = Some (default "" (fs !! hp) +:+ decl +:+ decl) /\
    fs2 !! sp = Some (start +:+ block +:+ block).
Proof.
  intros hp sp emit Hne Hok.
  assert (supported (dtype a)) as Hs.
  { destruct (dtype a) eqn:E; try exact I. exfalso.
    unfold emit in Hok.
    rewrite (create_header_file_unsupported _ _ _ _ _ _ _ _ _ E) in Hok.
    discriminate. }
  destruct (create_header_file_supported name section tensor_name a output_path
              debug weights Hne Hs) as (ty & al & t & r & Hres & Ht & Hrun).
  fold hp sp in Ht, Hrun. fold emit in Hrun.
  rewrite Hrun in Hok. cbn [snd] in Hok. subst r.
  apply emits_seq_inv in Ht as (t1 & t2 & H1 & H2 & ->);
    [|apply write_initializer_appends|apply dump_appends].
  apply write_initializer_closes in H1 as (body & ->).
  exists ty, al, body, t2. cbv zeta.
  rewrite !Hrun. cbn [fst snd].
  rewrite !run_lookup_source, !run_lookup_header by exact Hne.
  cbn [from_option id]. unfold header_text.
  split; [exact Hres|]. split; [reflexivity|].
  split; [destruct (fs !! sp); rewrite !app_assoc_s; reflexivity|].
  split.
  { intros p Hp1 Hp2. rewrite !lookup_insert_ne by congruence. reflexivity. }
  split; [reflexivity|].
  split; [rewrite !app_assoc_s; reflexivity|].
  destruct (fs !! sp); cbn [from_option id]; rewrite !app_assoc_s; reflexivity.
Qed.

Lemma concat_snoc {A} (h : A -> string) (init : list A) (z : A) :
  String.concat "," (map h (init ++ [z]))
  = cat (map (fun v => h v +:+ ",") init) +:+ h z.
Proof.
  induction init as [|x init IH]; [reflexivity|].
  cbn [app map cat fold_right]. fold (cat (map (fun v => h v +:+ ",") init)).
  rewrite !app_assoc_s, <- IH.
  destruct init; reflexivity.
Qed.

(** C3. For a well-formed, non-empty int8 or uint8 array, whose elements
    are [init] followed by a last element [z]: the initializer is the
    literal of each element of [init] with a comma after it, then the
    literal of [z] with the closing brace and semicolon straight after
    it.  No literal holds a comma of its own, and at loop index [2 * k]
    the separator step writes nothing exactly when the index equals
    [(len(flatten) - 1) * 2], a comma otherwise. *)
Theorem byte_kinds_no_trailing_comma name section tensor_name (a : ndarray)
    output_path debug weights (fs : FS) (init : list Z) (z : Z) :
  let hp := raw_header_path with_suffix output_path name in
  let sp := raw_source_path with_suffix output_path name in
  let fs' := fst (create_header_file with_suffix numpy_str ndarray_str
                    name section tensor_name a output_path debug weights fs) in
  hp <> sp -> wf_ndarray a -> dtype a = int8 \/ dtype a = uint8 ->
  flatten a = init ++ [z] ->
  exists ty al dumptext,
    resolve_type (dtype a) = Ok (ty, al) /\
    fs' !! sp = Some (default ("#include <stdint.h>" +:+ LF) (fs !! sp)
                      +:+ opening_line ty tensor_name section al
                      +:+ cat (map (fun v => byte_literal v +:+ ",") init)
                      +:+ byte_literal z
                      +:+ "};" +:+ LF +:+ LF +:+ dumptext) /\
    Forall (fun v => has_comma (byte_literal v) = false) (flatten a) /\
    forall k : nat, (k < length (flatten a))%nat ->
      emits sp (write_separator sp (flatten a) (2 * k))
        (if bool_decide (Z.of_nat (2 * k) = (Z.of_nat (length (flatten a)) - 1) * 2)
         then "" else ",") (Ok tt).
Proof.
  intros hp sp fs' Hne Hwf Hk Hflat.
  assert (supported (dtype a)) as Hs by (destruct Hk as [-> | ->]; exact I).
  destruct (create_header_file_wf name section tensor_name a output_path
              debug weights Hne Hwf Hs) as (ty & al & td & r & Hres & Hd & Hrun).
  exists ty, al, td. split; [exact Hres|]. split; [|split].
  - unfold fs'. rewrite Hrun. cbn [fst]. fold hp. fold sp.
    rewrite run_lookup_source. do 3 f_equal.
    unfold literal_list. rewrite Hflat.
    destruct Hk as [-> | ->]; rewrite concat_snoc, !app_assoc_s; reflexivity.
  - apply Forall_forall. intros v _. apply has_comma_byte_literal.
  - intros k Hlt. eapply emits_text; [apply write_separator_emits|].
    destruct (Nat.eqb_spec (S k) (length (flatten a))) as [E|E].
    + rewrite bool_decide_eq_true_2 by lia. reflexivity.
    + rewrite bool_decide_eq_false_2 by lia. reflexivity.
Qed.

(** C2. For a well-formed int8 or uint8 array the initializer written to
    the source file is a list of literals joined by commas, one literal
    per element, in order.  The literal of element number [k], of value
    [v], is what the loop body writes at index [2 * k]: when [v] is
    negative (which only an int8 element is), the text -0x and the two
    hex digits of the one byte [(~v) + 1]; otherwise the text +0x and the
    two characters at offset [2 * k] of the buffer's hex text, which are
    the two hex digits of [v].  So -5 gives -0x05, 5 gives +0x05 and 250
    gives +0xfa. *)
Theorem byte_literal_rendering name section tensor_name (a : ndarray)
    output_path debug weights (fs : FS) :
  let hp := raw_header_path with_suffix output_path name in
  let sp := raw_source_path with_suffix output_path name in
  let fs' := fst (create_header_file with_suffix numpy_str ndarray_str
                    name section tensor_name a output_path debug weights fs) in
  hp <> sp -> wf_ndarray a -> dtype a = int8 \/ dtype a = uint8 ->
  exists ty al dumptext (lits : list string),
    resolve_type (dtype a) = Ok (ty, al) /\
    fs' !! sp = Some (default ("#include <stdint.h>" +:+ LF) (fs !! sp)
                      +:+ opening_line ty tensor_name section al
                      +:+ String.concat "," lits
                      +:+ "};" +:+ LF +:+ LF +:+ dumptext) /\
    length lits = length (flatten a) /\
    forall (k : nat) (v : Z), nth_error (flatten a) k = Some v ->
      emits sp (write_byte_literal sp (hex (tobytes a)) (flatten a) (2 * k))
        (nth k lits "") (Ok tt)
      /\ (v < 0 ->
          dtype a = int8
          /\ nth_error lits k = Some ("-0x" +:+ byte_hex ((Z.lnot v + 1) mod 256)))
      /\ (0 <= v ->
          nth_error lits k = Some ("+0x" +:+ substring (2 * k) 2 (hex (tobytes a)))
          /\ substring (2 * k) 2 (hex (tobytes a)) = byte_hex v)
      /\ (v = -5 -> nth_error lits k = Some "-0x05")
      /\ (v = 5 -> nth_error lits k = Some "+0x05")
      /\ (v = 250 -> nth_error lits k = Some "+0xfa").
Proof.
  intros hp sp fs' Hne Hwf Hk.
  assert (supported (dtype a)) as Hs by (destruct Hk as [-> | ->]; exact I).
  destruct (create_header_file_wf name section tensor_name a output_path
              debug weights Hne Hwf Hs) as (ty & al & td & r & Hres & Hd & Hrun).
  exists ty, al, td, (map byte_literal (flatten a)).
  split; [exact Hres|]. split; [|split; [apply length_map|]].
  - unfold fs'. rewrite Hrun. cbn [fst]. fold hp. fold sp.
    rewrite run_lookup_source. do 3 f_equal.
    unfold literal_list. destruct Hk as [-> | ->]; reflexivity.
  - intros k v Hnth.
    assert (-128 <= v <= 255) as Hv.
    { pose proof (byte_range a Hwf Hk) as Hr. rewrite Forall_forall in Hr.
      apply Hr. apply list_elem_of_In. eapply nth_error_In. exact Hnth. }
    assert (nth_error (map byte_literal (flatten a)) k = Some (byte_literal v))
      as Hlit by (rewrite nth_error_map, Hnth; reflexivity).
    assert (0 <= v -> substring (2 * k) 2 (hex (tobytes a)) = byte_hex v) as Hraw.
    { intros Hpos. rewrite tobytes_byte_kind by exact Hk.
      rewrite (substring_hex _ k (v mod 256)).
      - rewrite Z.mod_small by lia. reflexivity.
      - unfold flatten in Hnth. rewrite nth_error_map, Hnth. reflexivity. }
    rewrite Hlit. split; [|split; [|split]].
    + rewrite (nth_error_nth _ _ "" Hlit).
      rewrite tobytes_byte_kind by exact Hk.
      apply write_byte_literal_emits; eassumption.
    + intros Hneg. split.
      * destruct Hk as [E|E]; [exact E|].
        destruct Hwf as [_ Hr]. rewrite E in Hr. rewrite Forall_forall in Hr.
        assert (0 <= v <= 255)
          by (apply Hr, list_elem_of_In; eapply nth_error_In; exact Hnth).
        lia.
      * unfold byte_literal.
        replace (v <? 0) with true by (symmetry; apply Z.ltb_lt; lia).
        assert (Z.lnot v + 1 = - v) as -> by (unfold Z.lnot; lia).
        rewrite Z.mod_small by lia. reflexivity.
    + intros Hpos. split; [|exact (Hraw Hpos)].
      rewrite (Hraw Hpos). unfold byte_literal.
      replace (v <? 0) with false by (symmetry; apply Z.ltb_ge; lia).
      rewrite Z.mod_small by lia. reflexivity.
    + repeat split; intros ->; reflexivity.
Qed.

(** C10. For every int8 value [v] from -128 to -1 the magnitude
    [(~v) + 1] is [-v], between 1 and 128, so the conversion to one
    unsigned byte returns; the loop body then writes -0x and two hex
    digits and returns, and for -128 the text is -0x80. *)
Theorem most_negative_byte f (data_hexstr : string) (flat : list Z) (k : nat) (v : Z) :
  nth_error flat k = Some v -> -128 <= v <= -1 ->
  to_bytes1 (Z.lnot v + 1) = Ok [- v]
  /\ 1 <= - v <= 128
  /\ emits f (write_byte_literal f data_hexstr flat (2 * k))
       ("-0x" +:+ byte_hex (- v)) (Ok tt)
  /\ (v = -128 -> "-0x" +:+ byte_hex (- v) = "-0x80").
Proof.
  intros Hnth Hv.
  assert (Z.lnot v + 1 = - v) as Hm by (unfold Z.lnot; lia).
  assert (to_bytes1 (- v) = Ok [- v]) as Hb.
  { unfold to_bytes1.
    replace ((0 <=? - v) && (- v <=? 255)) with true; [reflexivity|].
    symmetry. apply andb_true_iff. split; apply Z.leb_le; lia. }
  split; [rewrite Hm; exact Hb|]. split; [lia|]. split.
  - unfold write_byte_literal.
    assert ((2 * k) / 2 = k)%nat as ->
      by (rewrite Nat.mul_comm; apply Nat.div_mul; lia).
    eapply emits_lift_ok; [unfold getitem; rewrite Hnth; reflexivity|].
    replace (v <? 0) with true by (symmetry; apply Z.ltb_lt; lia).
    rewrite Hm.
    eapply emits_lift_ok; [exact Hb|].
    eapply emits_text; [apply emits_write|].
    cbn [hex]. rewrite app_nil_r_s. reflexivity.
  - intros ->. reflexivity.
Qed.

Lemma byte_literal_nonempty (v : Z) : byte_literal v <> "".
Proof. unfold byte_literal. destruct (v <? 0); discriminate. Qed.



End EmitterFacts.

(** ** Concrete runs *)

Example run_int8 :
  artifacts (run None sample_int8 false None ∅)
  = (Some ("#define x_len 3" +:+ LF +:+ "extern int8_t x[x_len];" +:+ LF),
     Some ("#include <stdint.h>" +:+ LF
           +:+ "int8_t x[] __attribute__((aligned(16))) = {-0x05,+0x05,-0x80};"
           +:+ LF +:+ LF),
     Ok tt).
Proof. vm_compute. reflexivity. Qed.

Example run_uint8_in_section :
  artifacts (run (Some "custom") sample_uint8 false None ∅)
  = (Some ("#define x_len 2" +:+ LF +:+ "extern uint8_t x[x_len];" +:+ LF),
     Some ("#include <stdint.h>" +:+ LF
           +:+ "uint8_t x[] __attribute__((section(" +:+ DQUOTE +:+ "custom"
           +:+ DQUOTE +:+ "), aligned(16))) = {+0xfa,+0x00};" +:+ LF +:+ LF),
     Ok tt).
Proof. vm_compute. reflexivity. Qed.

Example run_uint32_single :
  artifacts (run (Some "") sample_single false None ∅)
  = (Some ("#define x_len 1" +:+ LF +:+ "extern uint32_t x[x_len];" +:+ LF),
     Some ("#include <stdint.h>" +:+ LF
           +:+ "uint32_t x[] __attribute__((aligned(16))) = {7,};" +:+ LF +:+ LF),
     Ok tt).
Proof. vm_compute. reflexivity. Qed.

Example run_debug_dump :
  artifacts (run None sample_nhwc true None ∅)
  = (Some ("#define x_len 4" +:+ LF +:+ "extern int8_t x[x_len];" +:+ LF),
     Some ("#include <stdint.h>" +:+ LF
           +:+ "int8_t x[] __attribute__((aligned(16))) = {+0x01,+0x02,+0x03,-0x04};"
           +:+ LF +:+ LF
           +:+ "/*" +:+ LF
           +:+ "Channel 0:" +:+ LF +:+ "1" +:+ TAB +:+ LF +:+ "3" +:+ TAB +:+ LF
           +:+ "Channel 1:" +:+ LF +:+ "2" +:+ TAB +:+ LF +:+ "-4" +:+ TAB +:+ LF
           +:+ "*/" +:+ LF),
     Ok tt).
Proof. vm_compute. reflexivity. Qed.

(** A debug dump of an array of rank one stops at [shape[3]]; what was
    written before stays in the file. *)
Example run_debug_rank_one :
  artifacts (run None sample_int8 true None ∅)
  = (Some ("#define x_len 3" +:+ LF +:+ "extern int8_t x[x_len];" +:+ LF),
     Some ("#include <stdint.h>" +:+ LF
           +:+ "int8_t x[] __attribute__((aligned(16))) = {-0x05,+0x05,-0x80};"
           +:+ LF +:+ LF +:+ "/*" +:+ LF),
     Raise IndexError).
Proof. vm_compute. reflexivity. Qed.

(** ** The claims at concrete inputs *)

Lemma unsupported_kind_writes_nothing_witness :
  let r := run None sample_float64 false None ∅ in
  (~ supported (dtype sample_float64)) /\
  (r = (∅, Raise (AssertionError "Type float64 is not supported!"))
   /\ fst r !! "out/t.h" = (∅ : FS) !! "out/t.h"
   /\ fst r !! "out/t.c" = (∅ : FS) !! "out/t.c").
Proof.
  cbv zeta.
  assert (~ supported (dtype sample_float64)) as H by (intros H; exact H).
  split; [exact H|].
  exact (unsupported_kind_writes_nothing plain_suffix numpy_str0 ndarray_str0
           "t" None "x" sample_float64 "out" false None ∅ H).
Defined.

Lemma kind_resolves_to_type_and_alignment_witness :
  let with_suffix := plain_suffix in
  let numpy_str := numpy_str0 in
  let ndarray_str := ndarray_str0 in
  let name := "t" in
  let tensor_name := "x" in
  let output_path := "out" in
  let fs : FS := ∅ in
  let section : option string := None in
  let a := sample_int8 in
  let debug := false in
  let weights : option ndarray := None in
  let hp := raw_header_path with_suffix output_path name in
  let sp := raw_source_path with_suffix output_path name in
  let fs' := fst (create_header_file with_suffix numpy_str ndarray_str
                    name section tensor_name a output_path debug weights fs) in
  (hp <> sp /\
   supported (dtype a)) /\
  (exists ty al rest,
    (dtype a = float32 /\ ty = "float" /\ al = 32
     \/ dtype a = int8 /\ ty = "int8_t" /\ al = 16
     \/ dtype a = uint8 /\ ty = "uint8_t" /\ al = 16
     \/ dtype a = uint32 /\ ty = "uint32_t" /\ al = 16) /\
    resolve_type (dtype a) = Ok (ty, al) /\
    fs' !! hp = Some (default "" (fs !! hp)
                      +:+ "#define " +:+ tensor_name +:+ "_len "
                      +:+ str_int (Z.of_nat (size a)) +:+ LF
                      +:+ "extern " +:+ ty +:+ " " +:+ tensor_name +:+ "["
                      +:+ tensor_name +:+ "_len];" +:+ LF) /\
    fs' !! sp = Some (default ("#include <stdint.h>" +:+ LF) (fs !! sp)
                      +:+ ty +:+ " " +:+ tensor_name +:+ "[] __attribute__(("
                      +:+ (if truthy section
                           then "section(" +:+ DQUOTE +:+ section_text section
                                +:+ DQUOTE +:+ "), "
                           else "")
                      +:+ "aligned(" +:+ str_int al +:+ "))) = {" +:+ rest)).
Proof.
  cbv zeta.
  assert (raw_header_path plain_suffix "out" "t" <> raw_source_path plain_suffix "out" "t")
    as Hne by (vm_compute; discriminate).
  split; [split; [exact Hne | exact I]|].
  exact (kind_resolves_to_type_and_alignment plain_suffix numpy_str0 ndarray_str0
           "t" None "x" sample_int8 "out" false None ∅ Hne I).
Defined.

Lemma section_clause_gating_witness :
  let with_suffix := plain_suffix in
  let numpy_str := numpy_str0 in
  let ndarray_str := ndarray_str0 in
  let name := "t" in
  let tensor_name := "x" in
  let output_path := "out" in
  let fs : FS := ∅ in
  let section : option string := (Some "custom") in
  let a := sample_uint8 in
  let debug := false in
  let weights : option ndarray := None in
  let hp := raw_header_path with_suffix output_path name in
  let sp := raw_source_path with_suffix output_path name in
  let fs' := fst (create_header_file with_suffix numpy_str ndarray_str
                    name section tensor_name a output_path debug weights fs) in
  (hp <> sp /\
   supported (dtype a)) /\
  (exists ty al rest,
    resolve_type (dtype a) = Ok (ty, al) /\
    (section = None \/ section = Some "" ->
     fs' !! sp = Some (default ("#include <stdint.h>" +:+ LF) (fs !! sp)
                       +:+ ty +:+ " " +:+ tensor_name
                       +:+ "[] __attribute__((aligned(" +:+ str_int al
                       +:+ "))) = {" +:+ rest)) /\
    (forall s, section = Some s -> s <> "" ->
     fs' !! sp = Some (default ("#include <stdint.h>" +:+ LF) (fs !! sp)
                       +:+ ty +:+ " " +:+ tensor_name
                       +:+ "[] __attribute__((section(" +:+ DQUOTE +:+ s +:+ DQUOTE
                       +:+ "), aligned(" +:+ str_int al +:+ "))) = {" +:+ rest))).
Proof.
  cbv zeta.
  assert (raw_header_path plain_suffix "out" "t" <> raw_source_path plain_suffix "out" "t")
    as Hne by (vm_compute; discriminate).
  split; [split; [exact Hne | exact I]|].
  exact (section_clause_gating plain_suffix numpy_str0 ndarray_str0
           "t" (Some "custom") "x" sample_uint8 "out" false None ∅ Hne I).
Defined.

Lemma empty_array_initializer_witness :
  let with_suffix := plain_suffix in
  let numpy_str := numpy_str0 in
  let ndarray_str := ndarray_str0 in
  let name := "t" in
  let tensor_name := "x" in
  let output_path := "out" in
  let fs : FS := ∅ in
  let section : option string := None in
  let a := sample_empty in
  let debug := false in
  let weights : option ndarray := None in
  let hp := raw_header_path with_suffix output_path name in
  let sp := raw_source_path with_suffix output_path name in
  let fs' := fst (create_header_file with_suffix numpy_str ndarray_str
                    name section tensor_name a output_path debug weights fs) in
  (hp <> sp /\
   wf_ndarray a /\
   supported (dtype a) /\
   size a = 0%nat) /\
  (exists ty al head dumptext,
    resolve_type (dtype a) = Ok (ty, al) /\
    opening_line ty tensor_name section al = head +:+ "{" /\
    fs' !! sp = Some (default ("#include <stdint.h>" +:+ LF) (fs !! sp)
                      +:+ head +:+ "{};" +:+ LF +:+ LF +:+ dumptext) /\
    (debug = false -> dumptext = "")).
Proof.
  cbv zeta.
  assert (raw_header_path plain_suffix "out" "t" <> raw_source_path plain_suffix "out" "t")
    as Hne by (vm_compute; discriminate).
  assert (wf_ndarray sample_empty) as Hwf by (split; [reflexivity | constructor]).
  refine (conj (conj Hne (conj Hwf (conj I eq_refl))) _).
  exact (empty_array_initializer plain_suffix numpy_str0 ndarray_str0
           "t" None "x" sample_empty "out" false None ∅ Hne Hwf I eq_refl).
Defined.

Lemma single_element_initializer_witness :
  let with_suffix := plain_suffix in
  let numpy_str := numpy_str0 in
  let ndarray_str := ndarray_str0 in
  let name := "t" in
  let tensor_name := "x" in
  let output_path := "out" in
  let fs : FS := ∅ in
  let section : option string := None in
  let a := sample_single in
  let debug := false in
  let weights : option ndarray := None in
  let hp := raw_header_path with_suffix output_path name in
  let sp := raw_source_path with_suffix output_path name in
  let fs' := fst (create_header_file with_suffix numpy_str ndarray_str
                    name section tensor_name a output_path debug weights fs) in
  (hp <> sp /\
   wf_ndarray a /\
   supported (dtype a) /\
   shape a = [1%nat]) /\
  (exists v ty al dumptext,
    flatten a = [v] /\
    resolve_type (dtype a) = Ok (ty, al) /\
    fs' !! sp = Some (default ("#include <stdint.h>" +:+ LF) (fs !! sp)
                      +:+ opening_line ty tensor_name section al
                      +:+ (match dtype a with
                           | int8 | uint8 => byte_literal v
                           | _ => scalar_str numpy_str (dtype a) v +:+ ","
                           end)
                      +:+ "};" +:+ LF +:+ LF +:+ dumptext)).
Proof.
  cbv zeta.
  assert (raw_header_path plain_suffix "out" "t" <> raw_source_path plain_suffix "out" "t")
    as Hne by (vm_compute; discriminate).
  assert (wf_ndarray sample_single) as Hwf
    by (split; [reflexivity | repeat constructor; cbn; lia]).
  refine (conj (conj Hne (conj Hwf (conj I eq_refl))) _).
  exact (single_element_initializer plain_suffix numpy_str0 ndarray_str0
           "t" None "x" sample_single "out" false None ∅ Hne Hwf I eq_refl).
Defined.

Lemma append_only_accumulation_witness :
  let with_suffix := plain_suffix in
  let numpy_str := numpy_str0 in
  let ndarray_str := ndarray_str0 in
  let name := "t" in
  let tensor_name := "x" in
  let output_path := "out" in
  let fs : FS := ∅ in
  let section : option string := None in
  let a := sample_int8 in
  let debug := false in
  let weights : option ndarray := None in
  let hp := raw_header_path with_suffix output_path name in
  let sp := raw_source_path with_suffix output_path name in
  let emit := create_header_file with_suffix numpy_str ndarray_str
                name section tensor_name a output_path debug weights in
  (hp <> sp /\
   snd (emit fs) = Ok tt) /\
  (exists ty al body dumptext,
    let decl := ("#define " +:+ tensor_name +:+ "_len "
                 +:+ str_int (Z.of_nat (size a)) +:+ LF)
                +:+ ("extern " +:+ ty +:+ " " +:+ tensor_name +:+ "["
                     +:+ tensor_name +:+ "_len];" +:+ LF) in
    let block := opening_line ty tensor_name section al
                 +:+ body +:+ "};" +:+ LF +:+ LF +:+ dumptext in
    let start := match fs !! sp with
                 | Some old => old
                 | None => "#include <stdint.h>" +:+ LF
                 end in
    let fs1 := fst (emit fs) in
    let fs2 := fst (emit fs1) in
    resolve_type (dtype a) = Ok (ty, al) /\
    fs1 !! hp = Some (default "" (fs !! hp) +:+ decl) /\
    fs1 !! sp = Some (start +:+ block) /\
    (forall p, p <> hp -> p <> sp -> fs1 !! p = fs !! p) /\
    snd (emit fs1) = Ok tt /\
    fs2 !! hp = Some (default "" (fs !! hp) +:+ decl +:+ decl) /\
    fs2 !! sp = Some (start +:+ block +:+ block)).
Proof.
  cbv zeta.
  assert (raw_header_path plain_suffix "out" "t" <> raw_source_path plain_suffix "out" "t")
    as Hne by (vm_compute; discriminate).
  assert (snd (create_header_file plain_suffix numpy_str0 ndarray_str0
                 "t" None "x" sample_int8 "out" false None ∅) = Ok tt)
    as Hok by (vm_compute; reflexivity).
  split; [split; [exact Hne | exact Hok]|].
  exact (append_only_accumulation plain_suffix numpy_str0 ndarray_str0
           "t" None "x" sample_int8 "out" false None ∅ Hne Hok).
Defined.

Lemma byte_kinds_no_trailing_comma_witness :
  let with_suffix := plain_suffix in
  let numpy_str := numpy_str0 in
  let ndarray_str := ndarray_str0 in
  let name := "t" in
  let tensor_name := "x" in
  let output_path := "out" in
  let fs : FS := ∅ in
  let section : option string := None in
  let a := sample_int8 in
  let debug := false in
  let weights : option ndarray := None in
  let hp := raw_header_path with_suffix output_path name in
  let sp := raw_source_path with_suffix output_path name in
  let init := [-5; 5] in
  let z := -128 in
  let fs' := fst (create_header_file with_suffix numpy_str ndarray_str
                    name section tensor_name a output_path debug weights fs) in
  (hp <> sp /\
   wf_ndarray a /\
   (dtype a = int8 \/ dtype a = uint8) /\
   flatten a = init ++ [z]) /\
  (exists ty al dumptext,
    resolve_type (dtype a) = Ok (ty, al) /\
    fs' !! sp = Some (default ("#include <stdint.h>" +:+ LF) (fs !! sp)
                      +:+ opening_line ty tensor_name section al
                      +:+ cat (map (fun v => byte_literal v +:+ ",") init)
                      +:+ byte_literal z
                      +:+ "};" +:+ LF +:+ LF +:+ dumptext) /\
    Forall (fun v => has_comma (byte_literal v) = false) (flatten a) /\
    forall k : nat, (k < length (flatten a))%nat ->
      emits sp (write_separator sp (flatten a) (2 * k))
        (if bool_decide (Z.of_nat (2 * k) = (Z.of_nat (length (flatten a)) - 1) * 2)
         then "" else ",") (Ok tt)).
Proof.
  cbv zeta.
  assert (raw_header_path plain_suffix "out" "t" <> raw_source_path plain_suffix "out" "t")
    as Hne by (vm_compute; discriminate).
  assert (wf_ndarray sample_int8) as Hwf
    by (split; [reflexivity | repeat constructor; cbn; lia]).
  refine (conj (conj Hne (conj Hwf (conj (or_introl eq_refl) eq_refl))) _).
  exact (byte_kinds_no_trailing_comma plain_suffix numpy_str0 ndarray_str0
           "t" None "x" sample_int8 "out" false None ∅ [-5; 5] (-128)
           Hne Hwf (or_introl eq_refl) eq_refl).
Defined.

Lemma byte_literal_rendering_witness :
  let with_suffix := plain_suffix in
  let numpy_str := numpy_str0 in
  let ndarray_str := ndarray_str0 in
  let name := "t" in
  let tensor_name := "x" in
  let output_path := "out" in
  let fs : FS := ∅ in
  let section : option string := None in
  let a := sample_int8 in
  let debug := false in
  let weights : option ndarray := None in
  let hp := raw_header_path with_suffix output_path name in
  let sp := raw_source_path with_suffix output_path name in
  let fs' := fst (create_header_file with_suffix numpy_str ndarray_str
                    name section tensor_name a output_path debug weights fs) in
  (hp <> sp /\
   wf_ndarray a /\
   (dtype a = int8 \/ dtype a = uint8)) /\
  (exists ty al dumptext (lits : list string),
    resolve_type (dtype a) = Ok (ty, al) /\
    fs' !! sp = Some (default ("#include <stdint.h>" +:+ LF) (fs !! sp)
                      +:+ opening_line ty tensor_name section al
                      +:+ String.concat "," lits
                      +:+ "};" +:+ LF +:+ LF +:+ dumptext) /\
    length lits = length (flatten a) /\
    forall (k : nat) (v : Z), nth_error (flatten a) k = Some v ->
      emits sp (write_byte_literal sp (hex (tobytes a)) (flatten a) (2 * k))
        (nth k lits "") (Ok tt)
      /\ (v < 0 ->
          dtype a = int8
          /\ nth_error lits k = Some ("-0x" +:+ byte_hex ((Z.lnot v + 1) mod 256)))
      /\ (0 <= v ->
          nth_error lits k = Some ("+0x" +:+ substring (2 * k) 2 (hex (tobytes a)))
          /\ substring (2 * k) 2 (hex (tobytes a)) = byte_hex v)
      /\ (v = -5 -> nth_error lits k = Some "-0x05")
      /\ (v = 5 -> nth_error lits k = Some "+0x05")
      /\ (v = 250 -> nth_error lits k = Some "+0xfa")).
Proof.
  cbv zeta.
  assert (raw_header_path plain_suffix "out" "t" <> raw_source_path plain_suffix "out" "t")
    as Hne by (vm_compute; discriminate).
  assert (wf_ndarray sample_int8) as Hwf
    by (split; [reflexivity | repeat constructor; cbn; lia]).
  refine (conj (conj Hne (conj Hwf (or_introl eq_refl))) _).
  exact (byte_literal_rendering plain_suffix numpy_str0 ndarray_str0
           "t" None "x" sample_int8 "out" false None ∅
           Hne Hwf (or_introl eq_refl)).
Defined.

Lemma most_negative_byte_witness :
  let f := "out/t.c" in
  let data_hexstr := hex (tobytes sample_int8) in
  let flat := flatten sample_int8 in
  let k := 2%nat in
  let v := -128 in
  (nth_error flat k = Some v /\
   -128 <= v <= -1) /\
  (to_bytes1 (Z.lnot v + 1) = Ok [- v]
  /\ 1 <= - v <= 128
  /\ emits f (write_byte_literal f data_hexstr flat (2 * k))
       ("-0x" +:+ byte_hex (- v)) (Ok tt)
  /\ (v = -128 -> "-0x" +:+ byte_hex (- v) = "-0x80")).
Proof.
  cbv zeta.
  assert (-128 <= -128 <= -1) as Hv by lia.
  split; [split; [reflexivity | exact Hv]|].
  exact (most_negative_byte "out/t.c" (hex (tobytes sample_int8))
           (flatten sample_int8) 2 (-128) eq_refl Hv).
Defined.


(** C4 as it was stated fails for a uint32 array of shape (1,) holding 7:
    the source file ends with the text 7,}; and so is not the opening
    line, one literal free of commas, and the closing brace and
    semicolon. *)
Lemma single_uint32_literal_is_followed_by_a_comma :
  let fs' := fst (run None sample_single false None ∅) in
  let prefix := "#include <stdint.h>" +:+ LF
                +:+ "uint32_t x[] __attribute__((aligned(16))) = {" in
  fs' !! "out/t.c" = Some (prefix +:+ "7,};" +:+ LF +:+ LF)
  /\ ~ (exists lit, has_comma lit = false
                    /\ fs' !! "out/t.c" = Some (prefix +:+ lit +:+ "};" +:+ LF +:+ LF)).
Proof.
  cbv zeta.
  assert (fst (run None sample_single false None ∅) !! "out/t.c"
          = Some (("#include <stdint.h>" +:+ LF
                   +:+ "uint32_t x[] __attribute__((aligned(16))) = {")
                  +:+ "7,};" +:+ LF +:+ LF)) as E by (vm_compute; reflexivity).
  split; [exact E|].
  intros (lit & Hlit & H). rewrite E in H. injection H as H.
  apply String.app_inj in H.
  change ("7,};" +:+ LF +:+ LF) with ("7," +:+ "};" +:+ LF +:+ LF) in H.
  apply app_inv_tail_s in H. subst lit. discriminate Hlit.
Qed.


(** ** Divisors *)

Lemma StronglySorted_seqZ (m n : Z) : StronglySorted Z.lt (seqZ m n).
Proof.
  destruct (Z.le_gt_cases n 0) as [Hn|Hn].
  { rewrite seqZ_nil by lia. constructor. }
  rewrite <- (Z2Nat.id n) by lia.
  induction (Z.to_nat n) as [|k IH]; [rewrite seqZ_nil by lia; constructor|].
  rewrite seqZ_S. apply StronglySorted_app; split; [|split].
  - intros x1 x2 H1 H2. apply elem_of_seqZ in H1.
    apply list_elem_of_singleton in H2. lia.
  - exact IH.
  - repeat constructor.
Qed.

Lemma StronglySorted_filter (P : Z -> Prop) `{!forall x, Decision (P x)} (l : list Z) :
  StronglySorted Z.lt l -> StronglySorted Z.lt (filter P l).
Proof.
  induction l as [|x l IH]; intros Hs; [constructor|].
  apply StronglySorted_cons in Hs as [Hx Hl].
  rewrite filter_cons. destruct (decide (P x)); [|auto].
  apply StronglySorted_cons. split; [|auto].
  apply Forall_forall. intros y Hy. apply list_elem_of_filter in Hy as [_ Hy].
  rewrite Forall_forall in Hx. auto.
Qed.

Lemma get_divisors_exactly_the_divisors_aux (x i : Z) :
  i ∈ get_divisors x <-> 1 <= i <= x /\ (i | x).
Proof.
  unfold get_divisors, range_Z. rewrite list_elem_of_filter, elem_of_seqZ.
  split.
  - intros [Hm Hr]. split; [lia|]. apply Z.mod_divide; [lia | exact Hm].
  - intros [Hr Hd]. split; [|lia]. apply Z.mod_divide; [lia | exact Hd].
Qed.

(** X1. The list of [get_divisors x] holds exactly the integers from 1 to
    [x] that divide [x]; for [x] below 1 it holds nothing. *)
Theorem get_divisors_exactly_the_divisors (x i : Z) :
  (i ∈ get_divisors x <-> 1 <= i <= x /\ (i | x))
  /\ (x < 1 -> get_divisors x = []).
Proof.
  split; [apply get_divisors_exactly_the_divisors_aux|].
  intros Hx. unfold get_divisors, range_Z. rewrite seqZ_nil by lia. reflexivity.
Qed.

(** X2. [get_divisors] lists the divisors in strictly ascending order, so
    no divisor is listed twice. *)
Theorem get_divisors_ascending (x : Z) :
  StronglySorted Z.lt (get_divisors x) /\ NoDup (get_divisors x).
Proof.
  unfold get_divisors, range_Z. split.
  - apply StronglySorted_filter, StronglySorted_seqZ.
  - apply NoDup_filter, NoDup_seqZ.
Qed.

Lemma elem_of_foldl_intersection (y : Z) (s : gset Z) (rest : list (gset Z)) :
  y ∈ foldl (fun acc t => acc ∩ t) s rest <-> y ∈ s /\ forall t, t ∈ rest -> y ∈ t.
Proof.
  revert s. induction rest as [|t rest IH]; intros s; cbn [foldl].
  - split; [intros H; split; [exact H | intros t Ht; inversion Ht] | intros [H _]; exact H].
  - rewrite IH, elem_of_intersection. split.
    + intros [[Hs Ht] Hr]. split; [exact Hs|]. intros u Hu.
      apply elem_of_cons in Hu as [-> | Hu]; auto.
    + intros [Hs Hr]. split; [split; [exact Hs | apply Hr; left]|].
      intros u Hu. apply Hr. right. exact Hu.
Qed.

Lemma foldr_max_spec (y : Z) (ys : list Z) :
  foldr Z.max y ys ∈ y :: ys /\ forall z, z ∈ y :: ys -> z <= foldr Z.max y ys.
Proof.
  induction ys as [|a ys [IHin IHle]]; cbn [foldr].
  - split; [left|]. intros z Hz. apply list_elem_of_singleton in Hz. lia.
  - split.
    + destruct (Z.max_spec a (foldr Z.max y ys)) as [[_ ->] | [_ ->]].
      * apply elem_of_cons in IHin as [E | Hin]; [rewrite E; left|].
        right. right. exact Hin.
      * right. left.
    + intros z Hz. apply elem_of_cons in Hz as [-> | Hz].
      * specialize (IHle y ltac:(left)). lia.
      * apply elem_of_cons in Hz as [-> | Hz]; [lia|].
        specialize (IHle z ltac:(right; exact Hz)). lia.
Qed.

Lemma set_max_inr (s : gset Z) (m : Z) :
  set_max s = inr m <-> m ∈ s /\ forall z, z ∈ s -> z <= m.
Proof.
  unfold set_max. destruct (elements s) as [|y ys] eqn:E.
  - split; [discriminate|]. intros [Hm _].
    apply elem_of_elements in Hm. rewrite E in Hm. inversion Hm.
  - pose proof (foldr_max_spec y ys) as [Hin Hle].
    rewrite <- E in Hin. apply elem_of_elements in Hin.
    assert (forall z, z ∈ s -> z <= foldr Z.max y ys) as Hle'.
    { intros z Hz. apply Hle. rewrite <- E. apply elem_of_elements. exact Hz. }
    split.
    + intros [= <-]. auto.
    + intros [Hm Hmax]. f_equal.
      specialize (Hle' m Hm). specialize (Hmax _ Hin). lia.
Qed.

Lemma set_max_inl (s : gset Z) (e : DivExn.t) :
  set_max s = inl e <-> e = DivExn.ValueError /\ forall z, z ∉ s.
Proof.
  unfold set_max. destruct (elements s) as [|y ys] eqn:E.
  - split.
    + intros [= <-]. split; [reflexivity|]. intros z Hz.
      apply elem_of_elements in Hz. rewrite E in Hz. inversion Hz.
    + intros [-> _]. reflexivity.
  - split; [discriminate|]. intros [_ Hn]. exfalso. apply (Hn y).
    apply elem_of_elements. rewrite E. left.
Qed.

Section GreaterDivFacts.

Variable DIM : Z.

(** Past the type test and with one element or more, the function returns
    the maximum of the set of bounded common divisors. *)
Lemma get_greater_div_common (x : py_arg) (limit : option Z) (l : list Z) :
  arg_elements x = Some l -> l <> [] ->
  exists common : gset Z,
    (forall y, y ∈ common <-> bounded_common_divisor l (default DIM limit) y)
    /\ get_greater_div DIM x limit = set_max common.
Proof.
  intros Hx Hl. set (lim := default DIM limit).
  assert (get_greater_div DIM x limit
          = match set_intersection
                    (map list_to_set
                       (map (fun e => filter (fun d => d <= lim) (get_divisors e)) l)) with
            | inl e => inl e
            | inr common => set_max common
            end) as ->.
  { unfold get_greater_div, lim. destruct limit; destruct x; cbn in Hx;
      try discriminate; injection Hx as <-; reflexivity. }
  destruct l as [|e0 l]; [contradiction|]. cbn [map set_intersection].
  eexists. split; [|reflexivity].
  intros y. rewrite elem_of_foldl_intersection, elem_of_list_to_set,
    list_elem_of_filter, get_divisors_exactly_the_divisors_aux.
  unfold bounded_common_divisor. split.
  - intros [(Hlim & Hr & Hd) Hrest]. split; [lia|].
    intros e He. apply elem_of_cons in He as [-> | He]; [split; [lia | exact Hd]|].
    specialize (Hrest (list_to_set (filter (fun d => d <= lim) (get_divisors e)))).
    rewrite elem_of_list_to_set, list_elem_of_filter,
      get_divisors_exactly_the_divisors_aux in Hrest.
    destruct Hrest as (_ & Hr' & Hd').
    + apply list_elem_of_In, in_map_iff. eexists. split; [reflexivity|].
      apply in_map_iff. exists e. split; [reflexivity|].
      apply list_elem_of_In. exact He.
    + split; [lia | exact Hd'].
  - intros [Hr Hall]. split.
    + destruct (Hall e0 ltac:(left)) as [? ?]. repeat split; [lia..|assumption].
    + intros t Ht. apply list_elem_of_In, in_map_iff in Ht as (dl & <- & Ht).
      apply in_map_iff in Ht as (e & <- & He). apply list_elem_of_In in He.
      rewrite elem_of_list_to_set, list_elem_of_filter,
        get_divisors_exactly_the_divisors_aux.
      destruct (Hall e ltac:(right; exact He)) as [? ?].
      repeat split; [lia..|assumption].
Qed.

Lemma bounded_common_divisor_one (l : list Z) (lim : Z) :
  1 <= lim -> Forall (fun e => 1 <= e) l -> bounded_common_divisor l lim 1.
Proof.
  intros Hlim Hl. split; [lia|]. intros e He.
  rewrite Forall_forall in Hl. split; [auto | apply Z.divide_1_l].
Qed.

(** X3. How [get_greater_div] ends.  A value that is neither an int nor a
    list fails the assertion; an empty list makes [set.intersection]
    raise [TypeError]; otherwise there is a result exactly when the limit
    and every element are at least 1, and [max] of an empty set raises
    [ValueError] when the limit or some element is below 1 (so for the
    int 0 as well). *)
Theorem get_greater_div_outcome (x : py_arg) (limit : option Z) :
  let lim := default DIM limit in
  match arg_elements x with
  | None =>
      get_greater_div DIM x limit
      = inl (DivExn.AssertionError "type of x not supported!")
  | Some [] => get_greater_div DIM x limit = inl DivExn.TypeError
  | Some (e :: l) =>
      (1 <= lim /\ Forall (fun e => 1 <= e) (e :: l) ->
       exists g, get_greater_div DIM x limit = inr g)
      /\ (~ (1 <= lim /\ Forall (fun e => 1 <= e) (e :: l)) ->
          get_greater_div DIM x limit = inl DivExn.ValueError)
  end.
Proof.
  intros lim. destruct (arg_elements x) as [[|e l]|] eqn:Hx.
  - destruct x; cbn in Hx; try discriminate. injection Hx as ->.
    destruct limit; reflexivity.
  - destruct (get_greater_div_common x limit (e :: l) Hx ltac:(discriminate))
      as (common & Hc & ->). fold lim in Hc. split.
    + intros [Hlim Hl]. destruct (set_max common) as [err|g] eqn:E; [|eauto].
      apply set_max_inl in E as [_ Hn]. exfalso. apply (Hn 1), Hc.
      apply bounded_common_divisor_one; assumption.
    + intros Hno. destruct (set_max common) as [err|g] eqn:E.
      * apply set_max_inl in E as [-> _]. reflexivity.
      * apply set_max_inr in E as [Hg _]. apply Hc in Hg as [Hr Hall].
        exfalso. apply Hno. split; [lia|]. apply Forall_forall.
        intros z Hz. destruct (Hall z Hz). lia.
  - destruct x; cbn in Hx; try discriminate. destruct limit; reflexivity.
Qed.

(** X4. With one element or more, all of them and the limit at least 1,
    [get_greater_div] returns the greatest integer that divides every
    element and does not exceed the limit. *)
Theorem get_greater_div_greatest (x : py_arg) (limit : option Z) (l : list Z) :
  arg_elements x = Some l -> l <> [] ->
  1 <= default DIM limit -> Forall (fun e => 1 <= e) l ->
  exists g,
    get_greater_div DIM x limit = inr g
    /\ 1 <= g <= default DIM limit
    /\ (forall e, e ∈ l -> (g | e))
    /\ forall d, 1 <= d <= default DIM limit ->
                 (forall e, e ∈ l -> (d | e)) -> d <= g.
Proof.
  intros Hx Hne Hlim Hl.
  destruct (get_greater_div_common x limit l Hx Hne) as (common & Hc & ->).
  destruct (set_max common) as [err|g] eqn:E.
  { apply set_max_inl in E as [_ Hn]. exfalso. apply (Hn 1), Hc.
    apply bounded_common_divisor_one; assumption. }
  apply set_max_inr in E as [Hg Hmax]. exists g.
  pose proof (proj1 (Hc g) Hg) as [Hr Hall].
  split; [reflexivity|]. split; [exact Hr|]. split.
  - intros e He. apply (Hall e He).
  - intros d Hd Hdiv. apply Hmax, Hc. split; [exact Hd|].
    intros e He. split; [|auto].
    rewrite Forall_forall in Hl. apply Z.divide_pos_le; [|auto].
    specialize (Hl e He). lia.
Qed.

Lemma gcd_list_divides (l : list Z) (e : Z) :
  e ∈ l -> (foldr Z.gcd 0 l | e).
Proof.
  induction l as [|a l IH]; intros He; [inversion He|]. cbn [foldr].
  apply elem_of_cons in He as [-> | He].
  - apply Z.gcd_divide_l.
  - etransitivity; [apply Z.gcd_divide_r | apply IH; exact He].
Qed.

Lemma gcd_list_greatest (l : list Z) (d : Z) :
  (forall e, e ∈ l -> (d | e)) -> (d | foldr Z.gcd 0 l).
Proof.
  induction l as [|a l IH]; intros H; cbn [foldr]; [apply Z.divide_0_r|].
  apply Z.gcd_greatest; [apply H; left|].
  apply IH. intros e He. apply H. right. exact He.
Qed.

Lemma gcd_list_positive (l : list Z) :
  l <> [] -> Forall (fun e => 1 <= e) l -> 1 <= foldr Z.gcd 0 l.
Proof.
  intros Hne Hl. destruct l as [|a l]; [contradiction|].
  apply Forall_cons in Hl as [Ha _].
  assert (0 <= foldr Z.gcd 0 (a :: l)) as Hnn by apply Z.gcd_nonneg.
  assert (foldr Z.gcd 0 (a :: l) <> 0); [|lia].
  intros E. pose proof (gcd_list_divides (a :: l) a ltac:(left)) as Hd.
  rewrite E in Hd. apply Z.divide_0_l in Hd. lia.
Qed.

(** X5. With one element or more, all at least 1, and a limit that the
    greatest common divisor of the elements does not exceed, the result is
    that greatest common divisor; for a single int [n] within the limit it
    is [n] itself. *)
Theorem get_greater_div_is_gcd (x : py_arg) (limit : option Z) (l : list Z) :
  arg_elements x = Some l -> l <> [] ->
  Forall (fun e => 1 <= e) l ->
  foldr Z.gcd 0 l <= default DIM limit ->
  get_greater_div DIM x limit = inr (foldr Z.gcd 0 l)
  /\ (forall n, x = PyInt n -> get_greater_div DIM x limit = inr n).
Proof.
  intros Hx Hne Hl Hlim.
  assert (get_greater_div DIM x limit = inr (foldr Z.gcd 0 l)) as Hres.
  { destruct (get_greater_div_common x limit l Hx Hne) as (common & Hc & ->).
    pose proof (gcd_list_positive l Hne Hl) as Hpos.
    apply set_max_inr. split.
    - apply Hc. split; [lia|]. intros e He.
      pose proof (gcd_list_divides l e He) as Hd. split; [|exact Hd].
      rewrite Forall_forall in Hl. specialize (Hl e He).
      apply Z.divide_pos_le; [lia | exact Hd].
    - intros z Hz. apply Hc in Hz as [Hr Hall].
      apply Z.divide_pos_le; [lia|]. apply gcd_list_greatest.
      intros e He. apply (Hall e He). }
  split; [exact Hres|].
  intros n ->. cbn in Hx. injection Hx as <-. rewrite Hres. cbn [foldr].
  apply Forall_cons in Hl as [Hn _].
  rewrite Z.gcd_0_r, Z.abs_eq by lia. reflexivity.
Qed.

(** X6. The result depends only on which integers occur among the
    elements: two arguments with the same elements, in any order and with
    any repetitions, end the same way (an int [n] like the list [[n]]). *)
Theorem get_greater_div_order_irrelevant (x1 x2 : py_arg) (limit : option Z)
    (l1 l2 : list Z) :
  arg_elements x1 = Some l1 -> arg_elements x2 = Some l2 ->
  (forall e, e ∈ l1 <-> e ∈ l2) ->
  get_greater_div DIM x1 limit = get_greater_div DIM x2 limit.
Proof.
  intros H1 H2 Hsame.
  destruct l1 as [|a l1].
  { assert (l2 = []) as -> by (apply elem_of_nil_inv; intros e He;
      apply Hsame in He; inversion He).
    destruct x1; cbn in H1; try discriminate; injection H1 as E1; try discriminate.
    destruct x2; cbn in H2; try discriminate; injection H2 as E2; try discriminate.
    subst. reflexivity. }
  assert (l2 <> []) as Hne2.
  { intros ->. specialize (proj1 (Hsame a) ltac:(left)). inversion 1. }
  destruct (get_greater_div_common x1 limit (a :: l1) H1 ltac:(discriminate))
    as (c1 & Hc1 & ->).
  destruct (get_greater_div_common x2 limit l2 H2 Hne2) as (c2 & Hc2 & ->).
  f_equal. apply set_eq. intros y. rewrite Hc1, Hc2.
  unfold bounded_common_divisor. split; intros [Hr Hall]; (split; [exact Hr|]);
    intros e He; apply Hall, Hsame, He.
Qed.

(** X7. Raising the limit never lowers the result: when the function
    returns [g] under limit [a] and [g'] under a limit [b] that is at
    least [a], then [g] is at most [g']. *)
Theorem get_greater_div_monotone_in_limit (x : py_arg) (a b g g' : Z) :
  get_greater_div DIM x (Some a) = inr g ->
  get_greater_div DIM x (Some b) = inr g' ->
  a <= b -> g <= g'.
Proof.
  intros Ha Hb Hab.
  destruct (arg_elements x) as [l|] eqn:Hx;
    [|destruct x; cbn in Hx; try discriminate; discriminate Ha].
  destruct l as [|e l];
    [destruct x; cbn in Hx; try discriminate; injection Hx as ->; discriminate Ha|].
  destruct (get_greater_div_common x (Some a) (e :: l) Hx ltac:(discriminate))
    as (ca & Hca & Ea).
  destruct (get_greater_div_common x (Some b) (e :: l) Hx ltac:(discriminate))
    as (cb & Hcb & Eb).
  rewrite Ea in Ha. rewrite Eb in Hb.
  apply set_max_inr in Ha as [Hg _]. apply set_max_inr in Hb as [_ Hmax].
  apply Hmax, Hcb. apply Hca in Hg as [Hr Hall].
  cbn [default from_option id] in *. split; [lia | exact Hall].
Qed.

End GreaterDivFacts.

(** ** More on the emitter *)

Section EmitterMore.

Variable with_suffix : string -> string -> string.
Variable numpy_str : np_dtype -> Z -> string.
Variable ndarray_str : ndarray -> string.

(** X9. Whatever the arguments and however the call ends, it only
    appends: the header file and the source file keep what they held as a
    prefix of what they hold afterwards, and no other file changes. *)
Theorem every_call_only_appends name section tensor_name (a : ndarray)
    output_path debug weights (fs : FS) :
  let hp := raw_header_path with_suffix output_path name in
  let sp := raw_source_path with_suffix output_path name in
  let fs' := fst (create_header_file with_suffix numpy_str ndarray_str
                    name section tensor_name a output_path debug weights fs) in
  hp <> sp ->
  (forall p, p <> hp -> p <> sp -> fs' !! p = fs !! p)
  /\ (forall old, fs !! hp = Some old -> exists t, fs' !! hp = Some (old +:+ t))
  /\ (forall old, fs !! sp = Some old -> exists t, fs' !! sp = Some (old +:+ t)).
Proof.
  intros hp sp fs' Hne.
  destruct (dtype a) as [| | | |n] eqn:E.
  5:{ unfold fs'.
      rewrite (create_header_file_unsupported with_suffix numpy_str ndarray_str
                 _ _ _ _ _ _ _ _ _ E).
      cbn [fst]. split; [reflexivity|].
      split; intros old ->; exists ""; rewrite app_nil_r_s; reflexivity. }
  all: assert (supported (dtype a)) as Hs by (rewrite E; exact I).
  all: destruct (create_header_file_supported with_suffix numpy_str ndarray_str
                   name section tensor_name a output_path debug weights Hne Hs)
         as (ty & al & t & r & _ & _ & Hrun).
  all: unfold fs'; rewrite Hrun; cbn [fst]; fold hp; fold sp.
  all: split; [intros p H1 H2; rewrite !lookup_insert_ne by congruence; reflexivity|].
  all: split; intros old Hold; rewrite Hold; cbn [from_option id];
         [rewrite run_lookup_header by exact Hne | rewrite run_lookup_source]; eauto.
Qed.

(** X10. For a well-formed array of a supported kind, the number that
    the #define line gives to <tensor_name>_len is the number of literals
    between the braces of the initializer (counted by splitting at commas,
    a trailing comma adding none); for float32 this needs numpy's text of
    an element to hold no comma. *)
Theorem declared_length_counts_literals name section tensor_name (a : ndarray)
    output_path debug weights (fs : FS) :
  let hp := raw_header_path with_suffix output_path name in
  let sp := raw_source_path with_suffix output_path name in
  let fs' := fst (create_header_file with_suffix numpy_str ndarray_str
                    name section tensor_name a output_path debug weights fs) in
  hp <> sp -> wf_ndarray a -> supported (dtype a) ->
  (dtype a = float32 ->
   Forall (fun v => has_comma (numpy_str float32 v) = false) (flatten a)) ->
  exists ty al body dumptext,
    fs' !! hp = Some (default "" (fs !! hp)
                      +:+ "#define " +:+ tensor_name +:+ "_len "
                      +:+ str_int (Z.of_nat (length (tokens body))) +:+ LF
                      +:+ "extern " +:+ ty +:+ " " +:+ tensor_name +:+ "["
                      +:+ tensor_name +:+ "_len];" +:+ LF) /\
    fs' !! sp = Some (default ("#include <stdint.h>" +:+ LF) (fs !! sp)
                      +:+ opening_line ty tensor_name section al
                      +:+ body +:+ "};" +:+ LF +:+ LF +:+ dumptext).
Proof.
  intros hp sp fs' Hne Hwf Hs Hfloat.
  destruct (create_header_file_wf with_suffix numpy_str ndarray_str
              name section tensor_name a output_path debug weights Hne Hwf Hs)
    as (ty & al & td & r & _ & _ & Hrun).
  exists ty, al, (literal_list numpy_str a), td.
  assert (length (tokens (literal_list numpy_str a)) = size a) as ->.
  { destruct Hwf as [Hlen _]. unfold size. rewrite <- Hlen.
    unfold literal_list, flatten.
    destruct (dtype a) as [| | | |n] eqn:E; try contradiction.
    - rewrite (tokens_terminated (scalar_str numpy_str float32))
        by (apply Hfloat; reflexivity).
      apply length_map.
    - rewrite tokens_joined; [apply length_map|].
      apply Forall_forall. intros v _.
      split; [apply has_comma_byte_literal | apply byte_literal_nonempty].
    - rewrite tokens_joined; [apply length_map|].
      apply Forall_forall. intros v _.
      split; [apply has_comma_byte_literal | apply byte_literal_nonempty].
    - rewrite (tokens_terminated (scalar_str numpy_str uint32));
        [apply length_map|].
      apply Forall_forall. intros v _. apply has_comma_str_int. }
  unfold fs'. rewrite Hrun. cbn [fst]. fold hp. fold sp. split.
  - rewrite run_lookup_header by exact Hne. unfold header_text.
    rewrite !app_assoc_s. reflexivity.
  - apply run_lookup_source.
Qed.

(** X11. For a well-formed float32 or uint32 array the initializer is the
    text of each element followed by a comma, the last element included;
    a uint32 element is written in decimal, a float32 element as numpy
    prints it. *)
Theorem word_kinds_comma_after_every_element name section tensor_name
    (a : ndarray) output_path debug weights (fs : FS) :
  let hp := raw_header_path with_suffix output_path name in
  let sp := raw_source_path with_suffix output_path name in
  let fs' := fst (create_header_file with_suffix numpy_str ndarray_str
                    name section tensor_name a output_path debug weights fs) in
  hp <> sp -> wf_ndarray a -> dtype a = float32 \/ dtype a = uint32 ->
  exists ty al dumptext,
    resolve_type (dtype a) = Ok (ty, al) /\
    fs' !! sp = Some (default ("#include <stdint.h>" +:+ LF) (fs !! sp)
                      +:+ opening_line ty tensor_name section al
                      +:+ cat (map (fun v =>
                                      (if decide (dtype a = uint32)
                                       then str_int v
                                       else numpy_str float32 v) +:+ ",")
                                   (flatten a))
                      +:+ "};" +:+ LF +:+ LF +:+ dumptext).
Proof.
  intros hp sp fs' Hne Hwf Hk.
  assert (supported (dtype a)) as Hs by (destruct Hk as [-> | ->]; exact I).
  destruct (create_header_file_wf with_suffix numpy_str ndarray_str
              name section tensor_name a output_path debug weights Hne Hwf Hs)
    as (ty & al & td & r & Hres & _ & Hrun).
  exists ty, al, td. split; [exact Hres|].
  unfold fs'. rewrite Hrun. cbn [fst]. fold hp. fold sp.
  rewrite run_lookup_source. do 3 f_equal.
  unfold literal_list. destruct Hk as [-> | ->]; reflexivity.
Qed.

(** X12. Two tensors emitted one after the other under the same file
    name, each well formed and of a supported kind: the header holds what it held, then the two declaration
    lines of the first tensor, then those of the second; the source holds
    its start (the #include line when it was new), then the block of the
    first tensor, then the block of the second, the #include line not
    repeated. *)
Theorem two_tensors_accumulate name output_path (fs : FS)
    section1 tensor_name1 (a1 : ndarray) debug1 weights1
    section2 tensor_name2 (a2 : ndarray) debug2 weights2 :
  let hp := raw_header_path with_suffix output_path name in
  let sp := raw_source_path with_suffix output_path name in
  let call1 := create_header_file with_suffix numpy_str ndarray_str
                 name section1 tensor_name1 a1 output_path debug1 weights1 in
  let call2 := create_header_file with_suffix numpy_str ndarray_str
                 name section2 tensor_name2 a2 output_path debug2 weights2 in
  hp <> sp ->
  wf_ndarray a1 -> supported (dtype a1) ->
  wf_ndarray a2 -> supported (dtype a2) ->
  exists ty1 al1 body1 dump1 ty2 al2 body2 dump2,
    resolve_type (dtype a1) = Ok (ty1, al1) /\
    resolve_type (dtype a2) = Ok (ty2, al2) /\
    fst (call2 (fst (call1 fs))) !! hp
    = Some (default "" (fs !! hp)
            +:+ header_text ty1 tensor_name1 a1
            +:+ header_text ty2 tensor_name2 a2) /\
    fst (call2 (fst (call1 fs))) !! sp
    = Some (default ("#include <stdint.h>" +:+ LF) (fs !! sp)
            +:+ (opening_line ty1 tensor_name1 section1 al1
                 +:+ body1 +:+ "};" +:+ LF +:+ LF +:+ dump1)
            +:+ (opening_line ty2 tensor_name2 section2 al2
                 +:+ body2 +:+ "};" +:+ LF +:+ LF +:+ dump2)).
Proof.
  intros hp sp call1 call2 Hne Hwf1 Hs1 Hwf2 Hs2.
  destruct (create_header_file_wf with_suffix numpy_str ndarray_str
              name section1 tensor_name1 a1 output_path debug1 weights1
              Hne Hwf1 Hs1) as (ty1 & al1 & td1 & r1 & Hres1 & _ & Hrun1).
  destruct (create_header_file_wf with_suffix numpy_str ndarray_str
              name section2 tensor_name2 a2 output_path debug2 weights2
              Hne Hwf2 Hs2) as (ty2 & al2 & td2 & r2 & Hres2 & _ & Hrun2).
  fold hp sp in Hrun1, Hrun2. fold call1 in Hrun1. fold call2 in Hrun2.
  exists ty1, al1, (literal_list numpy_str a1), td1,
         ty2, al2, (literal_list numpy_str a2), td2.
  split; [exact Hres1|]. split; [exact Hres2|].
  rewrite Hrun2, Hrun1. cbn [fst].
  rewrite !run_lookup_source, !run_lookup_header by exact Hne.
  cbn [from_option id]. split; rewrite !app_assoc_s; reflexivity.
Qed.

Lemma nth_window (L : list Z) (k m j : nat) :
  (j < m)%nat -> nth j (firstn m (skipn k L)) 0 = nth (k + j) L 0.
Proof.
  intros H. rewrite nth_firstn.
  replace (j <? m)%nat with true by (symmetry; apply Nat.ltb_lt; exact H).
  apply nth_skipn.
Qed.

Lemma offset_lt (i j n m : nat) : (i < n -> j < m -> i * m + j < n * m)%nat.
Proof.
  intros Hi Hj.
  apply Nat.lt_le_trans with (S i * m)%nat; [cbn; lia|].
  apply Nat.mul_le_mono_r. lia.
Qed.

Lemma subarray_ok (a : ndarray) (d : nat) (sh : list nat) (i : nat) :
  shape a = d :: sh -> (i < d)%nat ->
  subarray a i
  = Ok (mk_ndarray (dtype a) sh
          (firstn (prod_shape sh) (skipn (i * prod_shape sh) (elems a)))).
Proof.
  intros Hsh Hi. unfold subarray. rewrite Hsh.
  replace (i <? d)%nat with true by (symmetry; apply Nat.ltb_lt; exact Hi).
  reflexivity.
Qed.

(** Indexing a rank-4 array four times gives the scalar at the row-major
    offset. *)
Lemma index4_cell f (a : ndarray) (d0 d1 d2 d3 i j k l : nat) :
  shape a = [d0; d1; d2; d3] ->
  (i < d0)%nat -> (j < d1)%nat -> (k < d2)%nat -> (l < d3)%nat ->
  emits f (x <- index4 a i j k l ;; write f (item_str numpy_str ndarray_str x +:+ TAB))
    (scalar_str numpy_str (dtype a)
       (nth (((i * d1 + j) * d2 + k) * d3 + l) (elems a) 0) +:+ TAB)
    (Ok tt).
Proof.
  intros Hsh Hi Hj Hk Hl.
  pose proof (subarray_ok a d0 [d1; d2; d3] i Hsh Hi) as E1.
  set (a1 := mk_ndarray (dtype a) [d1; d2; d3]
               (firstn (prod_shape [d1; d2; d3])
                  (skipn (i * prod_shape [d1; d2; d3]) (elems a)))) in E1.
  pose proof (subarray_ok a1 d1 [d2; d3] j eq_refl Hj) as E2.
  set (a2 := mk_ndarray (dtype a1) [d2; d3]
               (firstn (prod_shape [d2; d3])
                  (skipn (j * prod_shape [d2; d3]) (elems a1)))) in E2.
  pose proof (subarray_ok a2 d2 [d3] k eq_refl Hk) as E3.
  set (a3 := mk_ndarray (dtype a2) [d3]
               (firstn (prod_shape [d3])
                  (skipn (k * prod_shape [d3]) (elems a2)))) in E3.
  pose proof (subarray_ok a3 d3 [] l eq_refl Hl) as E4.
  set (a4 := mk_ndarray (dtype a3) []
               (firstn (prod_shape [])
                  (skipn (l * prod_shape []) (elems a3)))) in E4.
  assert (emits f (index4 a i j k l) "" (Ok a4)) as Hidx.
  { unfold index4.
    eapply emits_lift_ok; [exact E1|].
    eapply emits_lift_ok; [exact E2|].
    eapply emits_lift_ok; [exact E3|].
    rewrite E4. apply emits_lift. }
  eapply emits_text.
  - eapply emits_bind_ok; [exact Hidx | apply emits_write].
  - change ("" +:+ (item_str numpy_str ndarray_str a4 +:+ TAB))
      with (item_str numpy_str ndarray_str a4 +:+ TAB).
    f_equal. unfold item_str. cbn [shape dtype elems a4 a3 a2 a1].
    f_equal. cbn [prod_shape fold_right].
    rewrite !Nat.mul_1_r.
    rewrite nth_window by lia.
    rewrite nth_window by lia.
    rewrite nth_window by (rewrite Nat.add_0_r; apply offset_lt; assumption).
    rewrite nth_window
      by (apply offset_lt;
          [assumption | rewrite Nat.add_0_r; apply offset_lt; assumption]).
    f_equal. rewrite Nat.add_0_r. nia.
Qed.

Lemma shape_at_ok {B} f (a : ndarray) (k d : nat) (c : nat -> IO B) t r :
  nth_error (shape a) k = Some d -> emits f (c d) t r ->
  emits f (bind (shape_at a k) c) t r.
Proof.
  intros Hk Hc. unfold shape_at. eapply emits_lift_ok; [|exact Hc].
  unfold getitem. rewrite Hk. reflexivity.
Qed.

Lemma grid_emits f (a : ndarray) (d0 d1 d2 d3 : nat) (rows cols kr kc : nat)
    (at_cell : nat -> nat -> nat * nat * nat * nat) :
  shape a = [d0; d1; d2; d3] ->
  nth_error (shape a) kr = Some rows -> nth_error (shape a) kc = Some cols ->
  (forall row col, (row < rows)%nat -> (col < cols)%nat ->
     let '(i, j, k, l) := at_cell row col in
     (i < d0 /\ j < d1 /\ k < d2 /\ l < d3)%nat) ->
  emits f
    (for_each (range 0 rows 1) (fun row =>
       dc <- shape_at a kc ;;
       for_each (range 0 dc 1) (fun col =>
         let '(i, j, k, l) := at_cell row col in
         x <- index4 a i j k l ;;
         write f (item_str numpy_str ndarray_str x +:+ TAB)) ;;
       write f LF))
    (grid_text (fun row col =>
                  let '(i, j, k, l) := at_cell row col in
                  scalar_str numpy_str (dtype a)
                    (nth (((i * d1 + j) * d2 + k) * d3 + l) (elems a) 0))
               rows cols)
    (Ok tt).
Proof.
  intros Hsh Hr Hc Hin. unfold grid_text. rewrite range_step1.
  apply emits_for_each. intros row Hrow. apply in_seq in Hrow.
  eapply shape_at_ok; [exact Hc|].
  eapply emits_bind_ok; [|apply emits_write].
  rewrite range_step1. apply emits_for_each. intros col Hcol. apply in_seq in Hcol.
  specialize (Hin row col ltac:(lia) ltac:(lia)).
  destruct (at_cell row col) as [[[i j] k] l]. destruct Hin as (? & ? & ? & ?).
  apply (index4_cell f a d0 d1 d2 d3); assumption.
Qed.

Lemma dump_tensor_emits f (a : ndarray) (d0 d1 d2 d3 : nat) :
  shape a = [d0; d1; d2; d3] ->
  emits f (dump_tensor numpy_str ndarray_str f a)
    (("/*" +:+ LF)
     +:+ cat (map (fun n =>
           cat (map (fun ch =>
                  ("Channel " +:+ str_int (Z.of_nat ch) +:+ ":" +:+ LF)
                  +:+ grid_text
                        (fun row col =>
                           scalar_str numpy_str (dtype a)
                             (nth (((n * d1 + row) * d2 + col) * d3 + ch)
                                  (elems a) 0))
                        d1 d2)
                (seq 0 d3)))
         (seq 0 d0))
     +:+ ("*/" +:+ LF))
    (Ok tt).
Proof.
  intros Hsh. unfold dump_tensor.
  eapply emits_bind_ok; [apply emits_write|].
  eapply shape_at_ok; [rewrite Hsh; reflexivity|].
  eapply emits_bind_ok; [|apply emits_write].
  rewrite range_step1. apply emits_for_each. intros n Hn. apply in_seq in Hn.
  eapply shape_at_ok; [rewrite Hsh; reflexivity|].
  rewrite range_step1. apply emits_for_each. intros ch Hch. apply in_seq in Hch.
  eapply emits_bind_ok; [apply emits_write|].
  eapply shape_at_ok; [rewrite Hsh; reflexivity|].
  refine (grid_emits f a d0 d1 d2 d3 d1 d2 1 2 (fun row col => (n, row, col, ch))
            Hsh _ _ _).
  - rewrite Hsh. reflexivity.
  - rewrite Hsh. reflexivity.
  - intros row col Hr Hc. cbn. lia.
Qed.

Lemma dump_weights_emits f (w : ndarray) (k0 k1 k2 k3 : nat) :
  shape w = [k0; k1; k2; k3] ->
  emits f (dump_weights numpy_str ndarray_str f w)
    (("/*" +:+ LF)
     +:+ cat (map (fun o_ch =>
           ("Output channel " +:+ str_int (Z.of_nat o_ch) +:+ ":" +:+ LF)
           +:+ cat (map (fun i_ch =>
                  ("Input channel " +:+ str_int (Z.of_nat i_ch) +:+ ":" +:+ LF)
                  +:+ grid_text
                        (fun row col =>
                           scalar_str numpy_str (dtype w)
                             (nth (((row * k1 + col) * k2 + i_ch) * k3 + o_ch)
                                  (elems w) 0))
                        k0 k1)
                (seq 0 k2)))
         (seq 0 k3))
     +:+ ("*/" +:+ LF))
    (Ok tt).
Proof.
  intros Hsh. unfold dump_weights.
  eapply emits_bind_ok; [apply emits_write|].
  eapply shape_at_ok; [rewrite Hsh; reflexivity|].
  eapply emits_bind_ok; [|apply emits_write].
  rewrite range_step1. apply emits_for_each. intros o_ch Ho. apply in_seq in Ho.
  eapply emits_bind_ok; [apply emits_write|].
  eapply shape_at_ok; [rewrite Hsh; reflexivity|].
  rewrite range_step1. apply emits_for_each. intros i_ch Hi. apply in_seq in Hi.
  eapply emits_bind_ok; [apply emits_write|].
  eapply shape_at_ok; [rewrite Hsh; reflexivity|].
  refine (grid_emits f w k0 k1 k2 k3 k0 k1 0 1
            (fun row col => (row, col, i_ch, o_ch)) Hsh _ _ _).
  - rewrite Hsh. reflexivity.
  - rewrite Hsh. reflexivity.
  - intros row col Hr Hc. cbn. lia.
Qed.

(** The call on a well-formed array of a supported kind, once what the
    dump does is known. *)
Lemma create_header_file_with_dump name section tensor_name (a : ndarray)
    output_path debug weights td r (fs : FS) :
  let hp := raw_header_path with_suffix output_path name in
  let sp := raw_source_path with_suffix output_path name in
  hp <> sp -> wf_ndarray a -> supported (dtype a) ->
  emits sp (dump numpy_str ndarray_str sp a debug weights) td r ->
  exists ty al,
    resolve_type (dtype a) = Ok (ty, al) /\
    create_header_file with_suffix numpy_str ndarray_str
      name section tensor_name a output_path debug weights fs
    = (<[sp := default ("#include <stdint.h>" +:+ LF) (fs !! sp)
               +:+ opening_line ty tensor_name section al
               +:+ literal_list numpy_str a +:+ "};" +:+ LF +:+ LF +:+ td]>
         (<[hp := default "" (fs !! hp) +:+ header_text ty tensor_name a]> fs), r).
Proof.
  intros hp sp Hne Hwf Hs Hd.
  destruct (create_header_file_wf with_suffix numpy_str ndarray_str
              name section tensor_name a output_path debug weights Hne Hwf Hs)
    as (ty & al & td' & r' & Hres & Hd' & Hrun).
  destruct (emits_fun _ _ _ _ _ _ Hd Hd') as [-> ->].
  exists ty, al. split; [exact Hres | apply Hrun].
Qed.

(** X13. The debug dump of a well-formed rank-4 array [a] of shape
    (d0, d1, d2, d3), with no weights: the call returns, and after the
    initializer the source holds one comment that, for each index [n] of
    the first axis and each channel [ch] of the last, has the line
    Channel <ch>: and then d1 lines of d2 cells, the cell of line [row]
    and column [col] being the element [a[n][row][col][ch]], the one at
    row-major offset ((n*d1 + row)*d2 + col)*d3 + ch, each cell followed
    by a tab. *)
Theorem tensor_dump_layout name section tensor_name (a : ndarray)
    output_path (fs : FS) (d0 d1 d2 d3 : nat) :
  let hp := raw_header_path with_suffix output_path name in
  let sp := raw_source_path with_suffix output_path name in
  let r := create_header_file with_suffix numpy_str ndarray_str
             name section tensor_name a output_path true None fs in
  hp <> sp -> wf_ndarray a -> supported (dtype a) ->
  shape a = [d0; d1; d2; d3] ->
  exists ty al body,
    resolve_type (dtype a) = Ok (ty, al) /\
    snd r = Ok tt /\
    fst r !! sp
    = Some (default ("#include <stdint.h>" +:+ LF) (fs !! sp)
            +:+ opening_line ty tensor_name section al
            +:+ body +:+ "};" +:+ LF +:+ LF
            +:+ ("/*" +:+ LF)
            +:+ cat (map (fun n =>
                  cat (map (fun ch =>
                         ("Channel " +:+ str_int (Z.of_nat ch) +:+ ":" +:+ LF)
                         +:+ grid_text
                               (fun row col =>
                                  scalar_str numpy_str (dtype a)
                                    (nth (((n * d1 + row) * d2 + col) * d3 + ch)
                                         (flatten a) 0))
                               d1 d2)
                       (seq 0 d3)))
                (seq 0 d0))
            +:+ ("*/" +:+ LF)).
Proof.
  intros hp sp r Hne Hwf Hs Hsh.
  pose proof (dump_tensor_emits sp a d0 d1 d2 d3 Hsh) as Ht.
  pose proof (emits_bind_ok sp (dump_tensor numpy_str ndarray_str sp a)
                (fun _ => ret tt) _ tt _ _ Ht (emits_ret sp tt)) as Hd.
  destruct (create_header_file_with_dump name section tensor_name a output_path
              true None _ _ fs Hne Hwf Hs Hd) as (ty & al & Hres & Hrun).
  exists ty, al, (literal_list numpy_str a).
  split; [exact Hres|]. unfold r. rewrite Hrun. cbn [fst snd].
  split; [reflexivity|]. fold hp. fold sp.
  rewrite run_lookup_source. rewrite !app_nil_r_s, !app_assoc_s. reflexivity.
Qed.

Ltac appends_loop :=
  repeat first
    [ apply appends_write
    | apply appends_ret
    | apply appends_lift
    | apply appends_for_each; intros
    | apply appends_bind; [|intros] ].

Lemma dump_tensor_appends f (a : ndarray) :
  appends f (dump_tensor numpy_str ndarray_str f a).
Proof. unfold dump_tensor, shape_at, index4. appends_loop. Qed.

(** X14. With debug on and weights [w] of rank 4, of shape
    (k0, k1, k2, k3) and of any element kind: whenever the same call
    without weights returns (a tensor of rank 4 or more, or one whose
    first axis is empty), the call with [w] returns too and the source
    file holds what the call without weights leaves there, followed by a
    second comment: for each output channel [o] of the last axis of [w]
    the line Output channel <o>:, under it for each input channel [i] of
    the third axis the line Input channel <i>: and then k0 lines of k1
    cells, the cell of line [row] and column [col] being
    [w[row][col][i][o]], the element at row-major offset
    ((row*k1 + col)*k2 + i)*k3 + o. *)
Theorem weights_dump_layout name section tensor_name (a : ndarray)
    output_path (fs : FS) (w : ndarray) (k0 k1 k2 k3 : nat) :
  let hp := raw_header_path with_suffix output_path name in
  let sp := raw_source_path with_suffix output_path name in
  let plain := create_header_file with_suffix numpy_str ndarray_str
                 name section tensor_name a output_path true None fs in
  let r := create_header_file with_suffix numpy_str ndarray_str
             name section tensor_name a output_path true (Some w) fs in
  hp <> sp -> shape w = [k0; k1; k2; k3] ->
  snd plain = Ok tt ->
  snd r = Ok tt /\
  exists without,
    fst plain !! sp = Some without /\
    fst r !! sp
    = Some (without
            +:+ ("/*" +:+ LF)
            +:+ cat (map (fun o_ch =>
                  ("Output channel " +:+ str_int (Z.of_nat o_ch) +:+ ":" +:+ LF)
                  +:+ cat (map (fun i_ch =>
                         ("Input channel " +:+ str_int (Z.of_nat i_ch) +:+ ":" +:+ LF)
                         +:+ grid_text
                               (fun row col =>
                                  scalar_str numpy_str (dtype w)
                                    (nth (((row * k1 + col) * k2 + i_ch) * k3 + o_ch)
                                         (flatten w) 0))
                               k0 k1)
                       (seq 0 k2)))
                (seq 0 k3))
            +:+ ("*/" +:+ LF)).
Proof.
  intros hp sp plain r Hne Hw Hok.
  assert (supported (dtype a)) as Hs.
  { destruct (dtype a) eqn:E; try exact I. exfalso. unfold plain in Hok.
    rewrite (create_header_file_unsupported with_suffix numpy_str ndarray_str
               _ _ _ _ _ _ _ _ _ E) in Hok.
    discriminate. }
  destruct (resolve_type_supported _ Hs) as (ty & al & Hres).
  destruct (write_initializer_appends numpy_str sp a) as (t1 & r1 & H1).
  destruct (dump_tensor_appends sp a) as (t3 & r3 & H3).
  pose proof (dump_weights_emits sp w k0 k1 k2 k3 Hw) as Hwt.
  destruct r1 as [[]|e].
  2:{ exfalso. unfold plain in Hok.
      rewrite (create_header_file_run with_suffix numpy_str ndarray_str
                 name section tensor_name a output_path true None ty al t1 (Raise e) fs
                 Hne Hres) in Hok; [discriminate|].
      apply emits_bind_raise. exact H1. }
  destruct r3 as [[]|e].
  2:{ exfalso. unfold plain in Hok.
      rewrite (create_header_file_run with_suffix numpy_str ndarray_str
                 name section tensor_name a output_path true None ty al
                 (t1 +:+ t3) (Raise e) fs Hne Hres) in Hok; [discriminate|].
      eapply emits_bind_ok; [exact H1|].
      unfold dump. apply emits_bind_raise. exact H3. }
  assert (emits sp (write_initializer numpy_str sp a ;;
                    dump numpy_str ndarray_str sp a true None)
            (t1 +:+ t3 +:+ "") (Ok tt)) as Hplain.
  { eapply emits_bind_ok; [exact H1|]. unfold dump.
    eapply emits_bind_ok; [exact H3 | apply emits_ret]. }
  pose proof (emits_bind_ok sp (write_initializer numpy_str sp a)
                (fun _ => dump numpy_str ndarray_str sp a true (Some w)) _ tt _ _ H1
                (emits_bind_ok sp (dump_tensor numpy_str ndarray_str sp a)
                   (fun _ => dump_weights numpy_str ndarray_str sp w) _ tt _ _ H3 Hwt))
    as Hwith.
  unfold plain, r.
  rewrite (create_header_file_run with_suffix numpy_str ndarray_str
             _ _ _ _ _ _ _ _ _ _ _ fs Hne Hres Hplain).
  rewrite (create_header_file_run with_suffix numpy_str ndarray_str
             _ _ _ _ _ _ _ _ _ _ _ fs Hne Hres Hwith).
  cbn [fst snd]. split; [reflexivity|]. fold hp. fold sp.
  rewrite !run_lookup_source.
  eexists. split; [reflexivity|].
  rewrite !app_nil_r_s, !app_assoc_s. reflexivity.
Qed.

(** X15. The debug dump reads [shape[3]]: on a well-formed array of rank
    below 4 whose first axis is not empty (or of rank 0) the call raises
    [IndexError] after the initializer and the opening of the comment are
    written, so the source file is left ending in an unclosed comment. *)
Theorem debug_dump_needs_rank_four name section tensor_name (a : ndarray)
    output_path weights (fs : FS) :
  let hp := raw_header_path with_suffix output_path name in
  let sp := raw_source_path with_suffix output_path name in
  let r := create_header_file with_suffix numpy_str ndarray_str
             name section tensor_name a output_path true weights fs in
  hp <> sp -> wf_ndarray a -> supported (dtype a) ->
  (length (shape a) < 4)%nat ->
  (forall d sh, shape a = d :: sh -> (1 <= d)%nat) ->
  exists ty al body,
    resolve_type (dtype a) = Ok (ty, al) /\
    snd r = Raise IndexError /\
    fst r !! sp
    = Some (default ("#include <stdint.h>" +:+ LF) (fs !! sp)
            +:+ opening_line ty tensor_name section al
            +:+ body +:+ "};" +:+ LF +:+ LF +:+ "/*" +:+ LF).
Proof.
  intros hp sp r Hne Hwf Hs Hrank Hfirst.
  assert (emits sp (dump_tensor numpy_str ndarray_str sp a) ("/*" +:+ LF)
            (Raise IndexError)) as Ht.
  { unfold dump_tensor. eapply emits_text.
    - eapply emits_bind_ok; [apply emits_write|].
      destruct (shape a) as [|d sh] eqn:Hsh.
      + unfold shape_at. rewrite Hsh. apply emits_bind_raise, emits_lift.
      + specialize (Hfirst d sh eq_refl).
        eapply shape_at_ok; [rewrite Hsh; reflexivity|].
        apply emits_bind_raise. rewrite range_step1.
        destruct d as [|d]; [lia|]. cbn [seq for_each].
        apply emits_bind_raise. unfold shape_at.
        assert (getitem (shape a) 3 = Raise IndexError) as ->.
        { unfold getitem.
          assert (nth_error (shape a) 3 = None) as ->
            by (apply nth_error_None; rewrite Hsh; lia).
          reflexivity. }
        apply emits_bind_raise, emits_lift.
    - apply app_nil_r_s. }
  assert (emits sp (dump numpy_str ndarray_str sp a true weights) ("/*" +:+ LF)
            (Raise IndexError)) as Hd.
  { unfold dump. apply emits_bind_raise. exact Ht. }
  destruct (create_header_file_with_dump name section tensor_name a output_path
              true weights _ _ fs Hne Hwf Hs Hd) as (ty & al & Hres & Hrun).
  exists ty, al, (literal_list numpy_str a).
  split; [exact Hres|]. unfold r. rewrite Hrun. cbn [fst snd].
  split; [reflexivity|]. fold hp. fold sp.
  rewrite run_lookup_source. rewrite ?app_assoc_s. reflexivity.
Qed.

(** X16. When the first axis of a well-formed array is empty the loops
    of the tensor dump do not run, whatever the rank: with no weights the
    call returns and the dump is a comment with nothing in it. *)
Theorem debug_dump_of_empty_first_axis name section tensor_name (a : ndarray)
    output_path (fs : FS) (sh : list nat) :
  let hp := raw_header_path with_suffix output_path name in
  let sp := raw_source_path with_suffix output_path name in
  let r := create_header_file with_suffix numpy_str ndarray_str
             name section tensor_name a output_path true None fs in
  hp <> sp -> wf_ndarray a -> supported (dtype a) ->
  shape a = 0%nat :: sh ->
  exists ty al head,
    resolve_type (dtype a) = Ok (ty, al) /\
    opening_line ty tensor_name section al = head +:+ "{" /\
    snd r = Ok tt /\
    fst r !! sp
    = Some (default ("#include <stdint.h>" +:+ LF) (fs !! sp)
            +:+ head +:+ "{};" +:+ LF +:+ LF
            +:+ "/*" +:+ LF +:+ "*/" +:+ LF).
Proof.
  intros hp sp r Hne Hwf Hs Hsh.
  assert (emits sp (dump numpy_str ndarray_str sp a true None)
            ("/*" +:+ LF +:+ "*/" +:+ LF) (Ok tt)) as Hd.
  { unfold dump, dump_tensor. eapply emits_text.
    - eapply emits_bind_ok; [|apply emits_ret].
      eapply emits_bind_ok; [apply emits_write|].
      eapply shape_at_ok; [rewrite Hsh; reflexivity|].
      eapply emits_bind_ok; [|apply emits_write].
      rewrite range_step1. cbn [seq for_each]. apply emits_ret.
    - rewrite !app_nil_r_s, !app_assoc_s. reflexivity. }
  destruct (create_header_file_with_dump name section tensor_name a output_path
              true None _ _ fs Hne Hwf Hs Hd) as (ty & al & Hres & Hrun).
  assert (elems a = []) as Hnil.
  { destruct Hwf as [Hlen _]. rewrite Hsh in Hlen. cbn in Hlen.
    destruct (elems a); [reflexivity | discriminate]. }
  assert (literal_list numpy_str a = "") as Hlit.
  { unfold literal_list, flatten. rewrite Hnil. destruct (dtype a); reflexivity. }
  exists ty, al,
    (if truthy section
     then ty +:+ " " +:+ tensor_name +:+ "[] __attribute__((section(" +:+ DQUOTE
          +:+ section_text section +:+ DQUOTE +:+ "), aligned(" +:+ str_int al
          +:+ "))) = "
     else ty +:+ " " +:+ tensor_name +:+ "[] __attribute__((aligned("
          +:+ str_int al +:+ "))) = ").
  assert (opening_line ty tensor_name section al
          = (if truthy section
             then ty +:+ " " +:+ tensor_name +:+ "[] __attribute__((section("
                  +:+ DQUOTE +:+ section_text section +:+ DQUOTE
                  +:+ "), aligned(" +:+ str_int al +:+ "))) = "
             else ty +:+ " " +:+ tensor_name +:+ "[] __attribute__((aligned("
                  +:+ str_int al +:+ "))) = ") +:+ "{") as Hopen.
  { unfold opening_line. destruct (truthy section);
      rewrite !app_assoc_s; reflexivity. }
  split; [exact Hres|]. split; [exact Hopen|].
  unfold r. rewrite Hrun. cbn [fst snd]. split; [reflexivity|].
  fold hp. fold sp. rewrite run_lookup_source, Hlit, Hopen.
  rewrite !app_assoc_s. reflexivity.
Qed.

End EmitterMore.

(** ** Concrete divisors *)

Example divisors_of_12 : get_divisors 12 = [1; 2; 3; 4; 6; 12].
Proof. vm_compute. reflexivity. Qed.

Example greater_div_of_a_list : get_greater_div 16 (PyList [12; 18]) None = inr 6.
Proof. vm_compute. reflexivity. Qed.

Example greater_div_under_a_limit : get_greater_div 16 (PyInt 48) (Some 5) = inr 4.
Proof. vm_compute. reflexivity. Qed.

Example greater_div_of_zero : get_greater_div 16 (PyInt 0) None = inl DivExn.ValueError.
Proof. vm_compute. reflexivity. Qed.

Example greater_div_of_no_element :
  get_greater_div 16 (PyList []) None = inl DivExn.TypeError.
Proof. vm_compute. reflexivity. Qed.

(** ** The further properties at concrete inputs *)

Lemma get_greater_div_greatest_witness :
  let DIM := 16 in
  let x := PyList [12; 18] in
  let limit : option Z := None in
  let l := [12; 18] in
  (arg_elements x = Some l /\
   l <> [] /\
   1 <= default DIM limit /\
   Forall (fun e => 1 <= e) l) /\
  (exists g,
    get_greater_div DIM x limit = inr g
    /\ 1 <= g <= default DIM limit
    /\ (forall e, e ∈ l -> (g | e))
    /\ forall d, 1 <= d <= default DIM limit ->
                 (forall e, e ∈ l -> (d | e)) -> d <= g).
Proof.
  cbv zeta.
  assert (arg_elements (PyList [12; 18]) = Some [12; 18]) as H1
    by (reflexivity).
  assert ([12; 18] <> ([] : list Z)) as H2
    by (discriminate).
  assert (1 <= default 16 (None : option Z)) as H3
    by (cbn; lia).
  assert (Forall (fun e => 1 <= e) [12; 18]) as H4
    by (repeat constructor; lia).
  refine (conj (conj H1 (conj H2 (conj H3 H4))) _).
  exact (get_greater_div_greatest 16 (PyList [12; 18]) None [12; 18] H1 H2 H3 H4).
Defined.

Lemma get_greater_div_is_gcd_witness :
  let DIM := 16 in
  let x := PyList [12; 18] in
  let limit : option Z := None in
  let l := [12; 18] in
  (arg_elements x = Some l /\
   l <> [] /\
   Forall (fun e => 1 <= e) l /\
   foldr Z.gcd 0 l <= default DIM limit) /\
  (get_greater_div DIM x limit = inr (foldr Z.gcd 0 l)
  /\ (forall n, x = PyInt n -> get_greater_div DIM x limit = inr n)).
Proof.
  cbv zeta.
  assert (arg_elements (PyList [12; 18]) = Some [12; 18]) as H1
    by (reflexivity).
  assert ([12; 18] <> ([] : list Z)) as H2
    by (discriminate).
  assert (Forall (fun e => 1 <= e) [12; 18]) as H3
    by (repeat constructor; lia).
  assert (foldr Z.gcd 0 [12; 18] <= default 16 (None : option Z)) as H4
    by (vm_compute; discriminate).
  refine (conj (conj H1 (conj H2 (conj H3 H4))) _).
  exact (get_greater_div_is_gcd 16 (PyList [12; 18]) None [12; 18] H1 H2 H3 H4).
Defined.

Lemma get_greater_div_order_irrelevant_witness :
  let DIM := 16 in
  let x1 := PyList [12; 18] in
  let x2 := PyList [18; 12; 18] in
  let limit : option Z := Some 4 in
  let l1 := [12; 18] in
  let l2 := [18; 12; 18] in
  (arg_elements x1 = Some l1 /\
   arg_elements x2 = Some l2 /\
   (forall e, e ∈ l1 <-> e ∈ l2)) /\
  (get_greater_div DIM x1 limit = get_greater_div DIM x2 limit).
Proof.
  cbv zeta.
  assert (arg_elements (PyList [12; 18]) = Some [12; 18]) as H1
    by (reflexivity).
  assert (arg_elements (PyList [18; 12; 18]) = Some [18; 12; 18]) as H2
    by (reflexivity).
  assert (forall e : Z, e ∈ [12; 18] <-> e ∈ [18; 12; 18]) as H3
    by (intros e; rewrite !elem_of_cons, elem_of_nil; tauto).
  refine (conj (conj H1 (conj H2 H3)) _).
  exact (get_greater_div_order_irrelevant 16 (PyList [12; 18]) (PyList [18; 12; 18]) (Some 4) [12; 18] [18; 12; 18] H1 H2 H3).
Defined.

Lemma get_greater_div_monotone_in_limit_witness :
  let DIM := 16 in
  let x := PyInt 48 in
  let a := 5 in
  let b := 20 in
  let g := 4 in
  let g' := 16 in
  (get_greater_div DIM x (Some a) = inr g /\
   get_greater_div DIM x (Some b) = inr g' /\
   a <= b) /\
  (g <= g').
Proof.
  cbv zeta.
  assert (get_greater_div 16 (PyInt 48) (Some 5) = inr 4) as H1
    by (vm_compute; reflexivity).
  assert (get_greater_div 16 (PyInt 48) (Some 20) = inr 16) as H2
    by (vm_compute; reflexivity).
  assert (5 <= 20) as H3
    by (lia).
  refine (conj (conj H1 (conj H2 H3)) _).
  exact (get_greater_div_monotone_in_limit 16 (PyInt 48) 5 20 4 16 H1 H2 H3).
Defined.

Lemma every_call_only_appends_witness :
  let with_suffix := plain_suffix in
  let numpy_str := numpy_str0 in
  let ndarray_str := ndarray_str0 in
  let name := "t" in
  let tensor_name := "x" in
  let output_path := "out" in
  let section : option string := None in
  let a := sample_int8 in
  let debug := true in
  let weights : option ndarray := None in
  let fs : FS := {["out/t.h" := "kept"]} in
  let hp := raw_header_path with_suffix output_path name in
  let sp := raw_source_path with_suffix output_path name in
  let fs' := fst (create_header_file with_suffix numpy_str ndarray_str
                    name section tensor_name a output_path debug weights fs) in
  (hp <> sp) /\
  ((forall p, p <> hp -> p <> sp -> fs' !! p = fs !! p)
  /\ (forall old, fs !! hp = Some old -> exists t, fs' !! hp = Some (old +:+ t))
  /\ (forall old, fs !! sp = Some old -> exists t, fs' !! sp = Some (old +:+ t))).
Proof.
  cbv zeta.
  assert (raw_header_path plain_suffix "out" "t" <> raw_source_path plain_suffix "out" "t") as H1
    by (vm_compute; discriminate).
  refine (conj H1 _).
  exact (every_call_only_appends plain_suffix numpy_str0 ndarray_str0 "t" None "x" sample_int8 "out" true None {["out/t.h" := "kept"]} H1).
Defined.

Lemma declared_length_counts_literals_witness :
  let with_suffix := plain_suffix in
  let numpy_str := numpy_str0 in
  let ndarray_str := ndarray_str0 in
  let name := "t" in
  let tensor_name := "x" in
  let output_path := "out" in
  let section : option string := None in
  let a := sample_float32 in
  let debug := false in
  let weights : option ndarray := None in
  let fs : FS := ∅ in
  let hp := raw_header_path with_suffix output_path name in
  let sp := raw_source_path with_suffix output_path name in
  let fs' := fst (create_header_file with_suffix numpy_str ndarray_str
                    name section tensor_name a output_path debug weights fs) in
  (hp <> sp /\
   wf_ndarray a /\
   supported (dtype a) /\
   (dtype a = float32 ->
    Forall (fun v => has_comma (numpy_str float32 v) = false) (flatten a))) /\
  (exists ty al body dumptext,
    fs' !! hp = Some (default "" (fs !! hp)
                      +:+ "#define " +:+ tensor_name +:+ "_len "
                      +:+ str_int (Z.of_nat (length (tokens body))) +:+ LF
                      +:+ "extern " +:+ ty +:+ " " +:+ tensor_name +:+ "["
                      +:+ tensor_name +:+ "_len];" +:+ LF) /\
    fs' !! sp = Some (default ("#include <stdint.h>" +:+ LF) (fs !! sp)
                      +:+ opening_line ty tensor_name section al
                      +:+ body +:+ "};" +:+ LF +:+ LF +:+ dumptext)).
Proof.
  cbv zeta.
  assert (raw_header_path plain_suffix "out" "t" <> raw_source_path plain_suffix "out" "t") as H1
    by (vm_compute; discriminate).
  assert (wf_ndarray sample_float32) as H2
    by (split; [reflexivity | repeat constructor; cbn; lia]).
  assert (supported (dtype sample_float32)) as H3
    by (exact I).
  assert (dtype sample_float32 = float32 ->
          Forall (fun v => has_comma (numpy_str0 float32 v) = false) (flatten sample_float32)) as H4
    by (intros _; repeat constructor).
  refine (conj (conj H1 (conj H2 (conj H3 H4))) _).
  exact (declared_length_counts_literals plain_suffix numpy_str0 ndarray_str0 "t" None "x" sample_float32 "out" false None ∅ H1 H2 H3 H4).
Defined.

Lemma word_kinds_comma_after_every_element_witness :
  let with_suffix := plain_suffix in
  let numpy_str := numpy_str0 in
  let ndarray_str := ndarray_str0 in
  let name := "t" in
  let tensor_name := "x" in
  let output_path := "out" in
  let section : option string := None in
  let a := sample_single in
  let debug := false in
  let weights : option ndarray := None in
  let fs : FS := ∅ in
  let hp := raw_header_path with_suffix output_path name in
  let sp := raw_source_path with_suffix output_path name in
  let fs' := fst (create_header_file with_suffix numpy_str ndarray_str
                    name section tensor_name a output_path debug weights fs) in
  (hp <> sp /\
   wf_ndarray a /\
   (dtype a = float32 \/ dtype a = uint32)) /\
  (exists ty al dumptext,
    resolve_type (dtype a) = Ok (ty, al) /\
    fs' !! sp = Some (default ("#include <stdint.h>" +:+ LF) (fs !! sp)
                      +:+ opening_line ty tensor_name section al
                      +:+ cat (map (fun v =>
                                      (if decide (dtype a = uint32)
                                       then str_int v
                                       else numpy_str float32 v) +:+ ",")
                                   (flatten a))
                      +:+ "};" +:+ LF +:+ LF +:+ dumptext)).
Proof.
  cbv zeta.
  assert (raw_header_path plain_suffix "out" "t" <> raw_source_path plain_suffix "out" "t") as H1
    by (vm_compute; discriminate).
  assert (wf_ndarray sample_single) as H2
    by (split; [reflexivity | repeat constructor; cbn; lia]).
  assert (dtype sample_single = float32 \/ dtype sample_single = uint32) as H3
    by (right; reflexivity).
  refine (conj (conj H1 (conj H2 H3)) _).
  exact (word_kinds_comma_after_every_element plain_suffix numpy_str0 ndarray_str0 "t" None "x" sample_single "out" false None ∅ H1 H2 H3).
Defined.

Lemma two_tensors_accumulate_witness :
  let with_suffix := plain_suffix in
  let numpy_str := numpy_str0 in
  let ndarray_str := ndarray_str0 in
  let name := "t" in
  let output_path := "out" in
  let fs : FS := ∅ in
  let section1 : option string := None in
  let tensor_name1 := "x" in
  let a1 := sample_int8 in
  let debug1 := false in
  let weights1 : option ndarray := None in
  let section2 : option string := Some "custom" in
  let tensor_name2 := "y" in
  let a2 := sample_uint8 in
  let debug2 := false in
  let weights2 : option ndarray := None in
  let hp := raw_header_path with_suffix output_path name in
  let sp := raw_source_path with_suffix output_path name in
  let call1 := create_header_file with_suffix numpy_str ndarray_str
                 name section1 tensor_name1 a1 output_path debug1 weights1 in
  let call2 := create_header_file with_suffix numpy_str ndarray_str
                 name section2 tensor_name2 a2 output_path debug2 weights2 in
  (hp <> sp /\
   wf_ndarray a1 /\
   supported (dtype a1) /\
   wf_ndarray a2 /\
   supported (dtype a2)) /\
  (exists ty1 al1 body1 dump1 ty2 al2 body2 dump2,
    resolve_type (dtype a1) = Ok (ty1, al1) /\
    resolve_type (dtype a2) = Ok (ty2, al2) /\
    fst (call2 (fst (call1 fs))) !! hp
    = Some (default "" (fs !! hp)
            +:+ header_text ty1 tensor_name1 a1
            +:+ header_text ty2 tensor_name2 a2) /\
    fst (call2 (fst (call1 fs))) !! sp
    = Some (default ("#include <stdint.h>" +:+ LF) (fs !! sp)
            +:+ (opening_line ty1 tensor_name1 section1 al1
                 +:+ body1 +:+ "};" +:+ LF +:+ LF +:+ dump1)
            +:+ (opening_line ty2 tensor_name2 section2 al2
                 +:+ body2 +:+ "};" +:+ LF +:+ LF +:+ dump2))).
Proof.
  cbv zeta.
  assert (raw_header_path plain_suffix "out" "t" <> raw_source_path plain_suffix "out" "t") as H1
    by (vm_compute; discriminate).
  assert (wf_ndarray sample_int8) as H2
    by (split; [reflexivity | repeat constructor; cbn; lia]).
  assert (supported (dtype sample_int8)) as H3
    by (exact I).
  assert (wf_ndarray sample_uint8) as H4
    by (split; [reflexivity | repeat constructor; cbn; lia]).
  assert (supported (dtype sample_uint8)) as H5
    by (exact I).
  refine (conj (conj H1 (conj H2 (conj H3 (conj H4 H5)))) _).
  exact (two_tensors_accumulate plain_suffix numpy_str0 ndarray_str0 "t" "out" ∅ None "x" sample_int8 false None (Some "custom") "y" sample_uint8 false None H1 H2 H3 H4 H5).
Defined.

Lemma tensor_dump_layout_witness :
  let with_suffix := plain_suffix in
  let numpy_str := numpy_str0 in
  let ndarray_str := ndarray_str0 in
  let name := "t" in
  let tensor_name := "x" in
  let output_path := "out" in
  let section : option string := None in
  let a := sample_nhwc in
  let fs : FS := ∅ in
  let d0 := 1%nat in
  let d1 := 2%nat in
  let d2 := 1%nat in
  let d3 := 2%nat in
  let hp := raw_header_path with_suffix output_path name in
  let sp := raw_source_path with_suffix output_path name in
  let r := create_header_file with_suffix numpy_str ndarray_str
             name section tensor_name a output_path true None fs in
  (hp <> sp /\
   wf_ndarray a /\
   supported (dtype a) /\
   shape a = [d0; d1; d2; d3]) /\
  (exists ty al body,
    resolve_type (dtype a) = Ok (ty, al) /\
    snd r = Ok tt /\
    fst r !! sp
    = Some (default ("#include <stdint.h>" +:+ LF) (fs !! sp)
            +:+ opening_line ty tensor_name section al
            +:+ body +:+ "};" +:+ LF +:+ LF
            +:+ ("/*" +:+ LF)
            +:+ cat (map (fun n =>
                  cat (map (fun ch =>
                         ("Channel " +:+ str_int (Z.of_nat ch) +:+ ":" +:+ LF)
                         +:+ grid_text
                               (fun row col =>
                                  scalar_str numpy_str (dtype a)
                                    (nth (((n * d1 + row) * d2 + col) * d3 + ch)
                                         (flatten a) 0))
                               d1 d2)
                       (seq 0 d3)))
                (seq 0 d0))
            +:+ ("*/" +:+ LF))).
Proof.
  cbv zeta.
  assert (raw_header_path plain_suffix "out" "t" <> raw_source_path plain_suffix "out" "t") as H1
    by (vm_compute; discriminate).
  assert (wf_ndarray sample_nhwc) as H2
    by (split; [reflexivity | repeat constructor; cbn; lia]).
  assert (supported (dtype sample_nhwc)) as H3
    by (exact I).
  assert (shape sample_nhwc = [1; 2; 1; 2]%nat) as H4
    by (reflexivity).
  refine (conj (conj H1 (conj H2 (conj H3 H4))) _).
  exact (tensor_dump_layout plain_suffix numpy_str0 ndarray_str0 "t" None "x" sample_nhwc "out" ∅ 1 2 1 2 H1 H2 H3 H4).
Defined.

Lemma weights_dump_layout_witness :
  let with_suffix := plain_suffix in
  let numpy_str := numpy_str0 in
  let ndarray_str := ndarray_str0 in
  let name := "t" in
  let tensor_name := "x" in
  let output_path := "out" in
  let section : option string := None in
  let a := sample_empty_batch in
  let fs : FS := ∅ in
  let w := sample_weights in
  let k0 := 2%nat in
  let k1 := 1%nat in
  let k2 := 1%nat in
  let k3 := 2%nat in
  let hp := raw_header_path with_suffix output_path name in
  let sp := raw_source_path with_suffix output_path name in
  let plain := create_header_file with_suffix numpy_str ndarray_str
                 name section tensor_name a output_path true None fs in
  let r := create_header_file with_suffix numpy_str ndarray_str
             name section tensor_name a output_path true (Some w) fs in
  (hp <> sp /\
   shape w = [k0; k1; k2; k3] /\
   snd plain = Ok tt) /\
  (snd r = Ok tt /\
  exists without,
    fst plain !! sp = Some without /\
    fst r !! sp
    = Some (without
            +:+ ("/*" +:+ LF)
            +:+ cat (map (fun o_ch =>
                  ("Output channel " +:+ str_int (Z.of_nat o_ch) +:+ ":" +:+ LF)
                  +:+ cat (map (fun i_ch =>
                         ("Input channel " +:+ str_int (Z.of_nat i_ch) +:+ ":" +:+ LF)
                         +:+ grid_text
                               (fun row col =>
                                  scalar_str numpy_str (dtype w)
                                    (nth (((row * k1 + col) * k2 + i_ch) * k3 + o_ch)
                                         (flatten w) 0))
                               k0 k1)
                       (seq 0 k2)))
                (seq 0 k3))
            +:+ ("*/" +:+ LF))).
Proof.
  cbv zeta.
  assert (raw_header_path plain_suffix "out" "t" <> raw_source_path plain_suffix "out" "t")
    as H1 by (vm_compute; discriminate).
  assert (shape sample_weights = [2; 1; 1; 2]%nat) as H2 by reflexivity.
  assert (snd (create_header_file plain_suffix numpy_str0 ndarray_str0
                 "t" None "x" sample_empty_batch "out" true None ∅) = Ok tt)
    as H3 by (vm_compute; reflexivity).
  refine (conj (conj H1 (conj H2 H3)) _).
  exact (weights_dump_layout plain_suffix numpy_str0 ndarray_str0
           "t" None "x" sample_empty_batch "out" ∅ sample_weights 2 1 1 2 H1 H2 H3).
Defined.

Lemma debug_dump_needs_rank_four_witness :
  let with_suffix := plain_suffix in
  let numpy_str := numpy_str0 in
  let ndarray_str := ndarray_str0 in
  let name := "t" in
  let tensor_name := "x" in
  let output_path := "out" in
  let section : option string := None in
  let a := sample_int8 in
  let weights : option ndarray := None in
  let fs : FS := ∅ in
  let hp := raw_header_path with_suffix output_path name in
  let sp := raw_source_path with_suffix output_path name in
  let r := create_header_file with_suffix numpy_str ndarray_str
             name section tensor_name a output_path true weights fs in
  (hp <> sp /\
   wf_ndarray a /\
   supported (dtype a) /\
   (length (shape a) < 4)%nat /\
   (forall d sh, shape a = d :: sh -> (1 <= d)%nat)) /\
  (exists ty al body,
    resolve_type (dtype a) = Ok (ty, al) /\
    snd r = Raise IndexError /\
    fst r !! sp
    = Some (default ("#include <stdint.h>" +:+ LF) (fs !! sp)
            +:+ opening_line ty tensor_name section al
            +:+ body +:+ "};" +:+ LF +:+ LF +:+ "/*" +:+ LF)).
Proof.
  cbv zeta.
  assert (raw_header_path plain_suffix "out" "t" <> raw_source_path plain_suffix "out" "t") as H1
    by (vm_compute; discriminate).
  assert (wf_ndarray sample_int8) as H2
    by (split; [reflexivity | repeat constructor; cbn; lia]).
  assert (supported (dtype sample_int8)) as H3
    by (exact I).
  assert ((length (shape sample_int8) < 4)%nat) as H4
    by (cbn; lia).
  assert (forall d sh, shape sample_int8 = d :: sh -> (1 <= d)%nat) as H5
    by (intros d sh [= <- _]; lia).
  refine (conj (conj H1 (conj H2 (conj H3 (conj H4 H5)))) _).
  exact (debug_dump_needs_rank_four plain_suffix numpy_str0 ndarray_str0 "t" None "x" sample_int8 "out" None ∅ H1 H2 H3 H4 H5).
Defined.

Lemma debug_dump_of_empty_first_axis_witness :
  let with_suffix := plain_suffix in
  let numpy_str := numpy_str0 in
  let ndarray_str := ndarray_str0 in
  let name := "t" in
  let tensor_name := "x" in
  let output_path := "out" in
  let section : option string := None in
  let a := sample_empty_batch in
  let fs : FS := ∅ in
  let sh := [3%nat] in
  let hp := raw_header_path with_suffix output_path name in
  let sp := raw_source_path with_suffix output_path name in
  let r := create_header_file with_suffix numpy_str ndarray_str
             name section tensor_name a output_path true None fs in
  (hp <> sp /\
   wf_ndarray a /\
   supported (dtype a) /\
   shape a = 0%nat :: sh) /\
  (exists ty al head,
    resolve_type (dtype a) = Ok (ty, al) /\
    opening_line ty tensor_name section al = head +:+ "{" /\
    snd r = Ok tt /\
    fst r !! sp
    = Some (default ("#include <stdint.h>" +:+ LF) (fs !! sp)
            +:+ head +:+ "{};" +:+ LF +:+ LF
            +:+ "/*" +:+ LF +:+ "*/" +:+ LF)).
Proof.
  cbv zeta.
  assert (raw_header_path plain_suffix "out" "t" <> raw_source_path plain_suffix "out" "t") as H1
    by (vm_compute; discriminate).
  assert (wf_ndarray sample_empty_batch) as H2
    by (split; [reflexivity | constructor]).
  assert (supported (dtype sample_empty_batch)) as H3
    by (exact I).
  assert (shape sample_empty_batch = [0; 3]%nat) as H4
    by (reflexivity).
  refine (conj (conj H1 (conj H2 (conj H3 H4))) _).
  exact (debug_dump_of_empty_first_axis plain_suffix numpy_str0 ndarray_str0 "t" None "x" sample_empty_batch "out" ∅ [3%nat] H1 H2 H3 H4).
Defined.
